(** * Neighbourhood livability scoring service

    A shallow embedding of [main.py]: the scoring core ([normalize],
    [calculate_rating], [evaluate_neighborhood]), the metric providers with
    their fallback chains, the address validator and the single and batch
    request paths, followed by the properties of the specification that hold
    of them.

    Python numbers are IEEE-754 binary64 values; they are modelled with the
    kernel's primitive floats, so that every concrete run of the scoring core
    computes bit for bit what CPython computes (the builtin [sum] as of
    CPython 3.12, with the older accumulation kept beside it).  The scoring
    core is written once over an interface of numeric operations and is also
    read over exact rationals, the arithmetic in which the specification's
    formulas are written. *)

From Stdlib Require Import ZArith QArith Lqa Lia List String Ascii Bool Floats.
Import ListNotations.

Set Warnings "-inexact-float,-register-all".

Local Open Scope string_scope.
Local Open Scope Z_scope.

(** ** Exceptions and the error monad *)

Module Py.

(** The exception classes the program raises or catches.  [ConnectionError],
    [Timeout] and [HTTPError] are subclasses of
    [requests.exceptions.RequestException]; [KeyError] and [IndexError] are
    subclasses of [LookupError]; [HTTPException] is FastAPI's and belongs to
    neither family. *)
Inductive exn : Type :=
| ConnectionError
| Timeout
| HTTPError (status_code : Z)
| HTTPException (status_code : Z) (detail : string)
| LookupError
| KeyError
| IndexError
| TypeError
| AttributeError
| ValueError
| ZeroDivisionError
| OverflowError.

(** The outcome of a call: a returned value, a raised exception, or no return
    at all (a blocking read on a connection that is never answered). *)
Inductive exc (A : Type) : Type :=
| Ok (a : A)
| Raise (e : exn)
| Blocked.

Arguments Ok {A} a.
Arguments Raise {A} e.
Arguments Blocked {A}.

Definition bind {A B : Type} (m : exc A) (k : A -> exc B) : exc B :=
  match m with
  | Ok a => k a
  | Raise e => Raise e
  | Blocked => Blocked
  end.

(** [try: body  except <caught>: handler] *)
Definition try_except {A : Type} (body : exc A) (caught : exn -> bool)
    (handler : exc A) : exc A :=
  match body with
  | Ok a => Ok a
  | Raise e => if caught e then handler else Raise e
  | Blocked => Blocked
  end.

Definition is_RequestException (e : exn) : bool :=
  match e with
  | ConnectionError | Timeout | HTTPError _ => true
  | _ => false
  end.

Definition is_LookupError (e : exn) : bool :=
  match e with
  | LookupError | KeyError | IndexError => true
  | _ => false
  end.

Definition is_KeyError (e : exn) : bool :=
  match e with KeyError => true | _ => false end.

Definition is_IndexError (e : exn) : bool :=
  match e with IndexError => true | _ => false end.

Fixpoint mapM {A B : Type} (f : A -> exc B) (l : list A) : exc (list B) :=
  match l with
  | [] => Ok []
  | x :: xs =>
      bind (f x) (fun y => bind (mapM f xs) (fun ys => Ok (y :: ys)))
  end.

Fixpoint foldM {A S : Type} (f : S -> A -> exc S) (l : list A) (s : S)
    : exc S :=
  match l with
  | [] => Ok s
  | x :: xs => bind (f s x) (fun s' => foldM f xs s')
  end.

End Py.

Import Py.

Declare Scope exc_scope.
Delimit Scope exc_scope with exc.
Notation "x <- m ;; k" := (bind m (fun x => k))
  (at level 61, m at next level, right associativity) : exc_scope.
Notation "m ;;; k" := (bind m (fun _ => k))
  (at level 61, right associativity) : exc_scope.
Local Open Scope exc_scope.

(** ** Dictionaries

    A Python [dict] is an association list in insertion order; a lookup
    returns the first binding of the key. *)

Fixpoint dict_get {V : Type} (d : list (string * V)) (k : string) : option V :=
  match d with
  | [] => None
  | (k', v) :: d' => if String.eqb k' k then Some v else dict_get d' k
  end.

(** [d[k]] *)
Definition getitem {V : Type} (d : list (string * V)) (k : string) : exc V :=
  match dict_get d k with
  | Some v => Ok v
  | None => Raise KeyError
  end.

(** [d[k] = v]: an existing key keeps its position, a new one is appended. *)
Fixpoint dict_set {V : Type} (d : list (string * V)) (k : string) (v : V)
    : list (string * V) :=
  match d with
  | [] => [(k, v)]
  | (k', v') :: d' =>
      if String.eqb k' k then (k, v) :: d' else (k', v') :: dict_set d' k v
  end.

Definition keys {V : Type} (d : list (string * V)) : list string :=
  map fst d.

(** ** Numbers *)

(** The operations the scoring core uses on its numbers.  [lit] reads a
    decimal literal of the program text; [ndiv] is the quotient for a non-zero
    divisor, and [is_zero] the test that decides [ZeroDivisionError]; [nsum]
    is the builtin [sum] with its start value 0. *)
Class Number (T : Type) : Type := {
  lit : Q -> T;
  nadd : T -> T -> T;
  nsub : T -> T -> T;
  nmul : T -> T -> T;
  ndiv : T -> T -> T;
  is_zero : T -> bool;
  nge : T -> T -> bool;
  nsum : list T -> T
}.

Arguments lit {T _} q%_Q.

Declare Scope num_scope.
Delimit Scope num_scope with num.
Infix "+" := nadd : num_scope.
Infix "-" := nsub : num_scope.
Infix "*" := nmul : num_scope.
Infix "/" := ndiv : num_scope.
Infix ">=?" := nge (at level 70, no associativity) : num_scope.

(** [float(z)]: the binary64 value nearest to the integer [z]. *)
Definition Z2float (z : Z) : float :=
  SF2Prim (binary_normalize prec emax z 0 false).

(** [sum] over floats, as CPython computes it since version 3.12: Neumaier's
    compensated summation.  The running total [f_result] and the compensation
    [c] are updated for every item, and the compensation is added at the end
    when it is non-zero and finite. *)
Definition neumaier_step (acc : float * float) (x : float) : float * float :=
  let '(f_result, c) := acc in
  let t := PrimFloat.add f_result x in
  if PrimFloat.leb (PrimFloat.abs x) (PrimFloat.abs f_result)
  then (t, PrimFloat.add c (PrimFloat.add (PrimFloat.sub f_result t) x))
  else (t, PrimFloat.add c (PrimFloat.add (PrimFloat.sub x t) f_result)).

Definition float_is_finite (x : float) : bool :=
  PrimFloat.ltb (PrimFloat.abs x) PrimFloat.infinity.

(** The start value is the integer 0: the first item is added to it as
    [0 + x], and the compensated loop runs over the remaining items. *)
Definition float_sum (xs : list float) : float :=
  match xs with
  | [] => 0%float
  | x :: rest =>
      let '(f_result, c) :=
        fold_left neumaier_step rest (PrimFloat.add 0%float x, 0%float) in
      if negb (PrimFloat.eqb c 0%float) && float_is_finite c
      then PrimFloat.add f_result c
      else f_result
  end.

(** [sum] over floats before CPython 3.12: plain accumulation from the left. *)
Definition float_sum_legacy (xs : list float) : float :=
  fold_left PrimFloat.add xs 0%float.

(** CPython's [float]: binary64 with round-to-nearest-even.  A decimal literal
    [n/10^k] is the correctly rounded quotient of two exactly representable
    integers, which is the double the Python parser produces. *)
#[export] Instance float_Number : Number float := {|
  lit q := PrimFloat.div (Z2float (Qnum q)) (Z2float (Zpos (Qden q)));
  nadd := PrimFloat.add;
  nsub := PrimFloat.sub;
  nmul := PrimFloat.mul;
  ndiv := PrimFloat.div;
  is_zero x := PrimFloat.eqb x 0%float;
  nge x y := PrimFloat.leb y x;
  nsum := float_sum
|}.

(** The same numbers under an interpreter older than 3.12. *)
Definition float_Number_legacy : Number float := {|
  lit q := PrimFloat.div (Z2float (Qnum q)) (Z2float (Zpos (Qden q)));
  nadd := PrimFloat.add;
  nsub := PrimFloat.sub;
  nmul := PrimFloat.mul;
  ndiv := PrimFloat.div;
  is_zero x := PrimFloat.eqb x 0%float;
  nge x y := PrimFloat.leb y x;
  nsum := float_sum_legacy
|}.

(** Exact rational arithmetic.  The interpreter computes with
    [float_Number]; this instance is the idealisation in which the
    specification words its formulas, and a statement over it is about the
    formula of the code, not about the doubles it produces. *)
#[export] Instance Q_Number : Number Q := {|
  lit q := q;
  nadd := Qplus;
  nsub := Qminus;
  nmul := Qmult;
  ndiv := Qdiv;
  is_zero x := Qeq_bool x 0;
  nge x y := Qle_bool y x;
  nsum xs := fold_left Qplus xs 0%Q
|}.

(** ** Scoring core *)

Record EvaluationResult (T : Type) : Type := {
  rating : string;
  score : T
}.

Arguments rating {T} _.
Arguments score {T} _.

Section Scoring.

Context {T : Type} `{Number T}.

Local Open Scope num_scope.

Definition CRITERIA_WEIGHTS : list (string * T) :=
  [ ("population_density", lit 0.2);
    ("crime_rate", lit 0.2);
    ("income", lit 0.15);
    ("residential_ratio", lit 0.08);
    ("noise_level", lit 0.05);
    ("healthcare_access", lit 0.3);
    ("community_engagement", lit 0.1);
    ("environmental_quality", lit 0.12) ].

Definition normalize (value min_val max_val : T) (invert : bool) : exc T :=
  let range := max_val - min_val in
  if is_zero range then Raise ZeroDivisionError
  else
    let norm := (value - min_val) / range in
    Ok (if invert then lit 1 - norm else norm).

Definition calculate_rating (score : T) : string :=
  if score >=? lit 1.5 then "Excellent"
  else if score >=? lit 0.8 then "Good"
  else if score >=? lit 0.4 then "Average"
  else if score >=? lit 0.2 then "Poor"
  else "Very Poor".

(** The dict literal [normalized_scores] of [evaluate_neighborhood]: its
    entries are evaluated in order, each one a lookup in [data] followed by a
    call of [normalize]. *)
Definition normalized_scores (data : list (string * T))
    : exc (list (string * T)) :=
  v <- getitem data "population_density" ;;
  population_density <- normalize v (lit 100) (lit 10000) false ;;
  v <- getitem data "crime_rate" ;;
  crime_rate <- normalize v (lit 0) (lit 500) true ;;
  v <- getitem data "income" ;;
  income <- normalize v (lit 20000) (lit 150000) false ;;
  v <- getitem data "residential_ratio" ;;
  residential_ratio <- normalize v (lit 0) (lit 1) false ;;
  v <- getitem data "noise_level" ;;
  noise_level <- normalize v (lit 0) (lit 100) true ;;
  v <- getitem data "healthcare_access" ;;
  healthcare_access <- normalize v (lit 0) (lit 100) false ;;
  v <- getitem data "community_engagement" ;;
  community_engagement <- normalize v (lit 0) (lit 100) false ;;
  v <- getitem data "environmental_quality" ;;
  environmental_quality <- normalize v (lit 0) (lit 100) false ;;
  Ok [ ("population_density", population_density);
       ("crime_rate", crime_rate);
       ("income", income);
       ("residential_ratio", residential_ratio);
       ("noise_level", noise_level);
       ("healthcare_access", healthcare_access);
       ("community_engagement", community_engagement);
       ("environmental_quality", environmental_quality) ].

(** [sum(CRITERIA_WEIGHTS[k] * normalized_scores[k] for k in CRITERIA_WEIGHTS)] *)
Definition weighted_sum (scores : list (string * T)) : exc T :=
  terms <- mapM (fun k =>
                   w <- getitem CRITERIA_WEIGHTS k ;;
                   n <- getitem scores k ;;
                   Ok (w * n))
                (keys CRITERIA_WEIGHTS) ;;
  Ok (nsum terms).

Definition evaluate_neighborhood (data : list (string * T))
    : exc (EvaluationResult T) :=
  scores <- normalized_scores data ;;
  total_score <- weighted_sum scores ;;
  let rating := calculate_rating total_score in
  Ok {| rating := rating; score := total_score |}.

End Scoring.

Definition golden_record : list (string * float) :=
  [ ("population_density", 5000%float);
    ("crime_rate", 50%float);
    ("income", 60000%float);
    ("residential_ratio", 0.8%float);
    ("noise_level", 30%float);
    ("healthcare_access", 85%float);
    ("community_engagement", 70%float);
    ("environmental_quality", 75%float) ].

(** ** Python values

    The values that flow through the providers: parsed JSON documents, address
    details, and the rejection message of the validator. *)

Inductive number : Type :=
| Int (z : Z)
| Float (f : float).

Inductive value : Type :=
| VNone
| VBool (b : bool)
| VNum (n : number)
| VStr (s : string)
| VList (l : list value)
| VDict (d : list (string * value)).

(** The binary64 value of a number in the [dict[str, float]] record that
    [evaluate_neighborhood] takes: a float is itself, an int is its nearest
    double (itself below 2^53, the range of the counts and truncated
    densities the record holds). *)
Definition to_float (n : number) : float :=
  match n with
  | Int z => Z2float z
  | Float f => f
  end.

Definition number_is_zero (n : number) : bool :=
  match n with
  | Int z => z =? 0
  | Float f => PrimFloat.eqb f 0%float
  end.

(** [bool(v)] *)
Definition truthy (v : value) : bool :=
  match v with
  | VNone => false
  | VBool b => b
  | VNum n => negb (number_is_zero n)
  | VStr s => negb (String.eqb s "")
  | VList l => match l with [] => false | _ => true end
  | VDict d => match d with [] => false | _ => true end
  end.

(** [v.get(k, default)]: only a dict has the method. *)
Definition py_get (v : value) (k : string) (default : value) : exc value :=
  match v with
  | VDict d => Ok (match dict_get d k with Some x => x | None => default end)
  | _ => Raise AttributeError
  end.

(** [v[k]] for a string key. *)
Definition py_getitem_str (v : value) (k : string) : exc value :=
  match v with
  | VDict d => getitem d k
  | _ => Raise TypeError
  end.

(** [l[i]] on a Python sequence, negative indices counting from the end. *)
Definition seq_index {A : Type} (l : list A) (i : Z) : exc A :=
  let n := Z.of_nat (List.length l) in
  let j := if i <? 0 then i + n else i in
  if (j <? 0) || (n <=? j) then Raise IndexError
  else match nth_error l (Z.to_nat j) with
       | Some x => Ok x
       | None => Raise IndexError
       end.

Definition chars (s : string) : list string :=
  map (fun c => String c EmptyString) (list_ascii_of_string s).

(** [v[i]] for an integer index.  The keys of a parsed JSON object are
    strings, so an integer is never among them. *)
Definition py_getitem_int (v : value) (i : Z) : exc value :=
  match v with
  | VList l => seq_index l i
  | VStr s => x <- seq_index (chars s) i ;; Ok (VStr x)
  | VDict _ => Raise KeyError
  | _ => Raise TypeError
  end.

(** [v[k] = x] *)
Definition py_setitem (v : value) (k : string) (x : value) : exc value :=
  match v with
  | VDict d => Ok (VDict (dict_set d k x))
  | _ => Raise TypeError
  end.

(** [len(v)] *)
Definition py_len (v : value) : exc Z :=
  match v with
  | VList l => Ok (Z.of_nat (List.length l))
  | VDict d => Ok (Z.of_nat (List.length d))
  | VStr s => Ok (Z.of_nat (String.length s))
  | _ => Raise TypeError
  end.

(** The elements [for x in v] visits. *)
Definition py_iter (v : value) : exc (list value) :=
  match v with
  | VList l => Ok l
  | VDict d => Ok (map VStr (keys d))
  | VStr s => Ok (map VStr (chars s))
  | _ => Raise TypeError
  end.

(** [v == s] for a string [s] *)
Definition py_eq_str (v : value) (s : string) : bool :=
  match v with
  | VStr s' => String.eqb s' s
  | _ => false
  end.

(** [v in set(l)] for a set of strings: the element is hashed first. *)
Definition py_in_strs (v : value) (l : list string) : exc bool :=
  match v with
  | VStr s => Ok (existsb (String.eqb s) l)
  | VList _ | VDict _ => Raise TypeError
  | _ => Ok false
  end.

Definition as_number (v : value) : option number :=
  match v with
  | VNum n => Some n
  | VBool b => Some (Int (if b then 1 else 0))
  | _ => None
  end.

(** An int as an unrounded binary float, the operand of a division that
    rounds once. *)
Definition Z2SF (z : Z) : spec_float :=
  match z with
  | Z0 => S754_zero false
  | Zpos p => S754_finite false p 0
  | Zneg p => S754_finite true p 0
  end.

(** [a / b] on two ints: the exact quotient, rounded once to the nearest
    binary64 value (ties to even); [ZeroDivisionError] for a zero divisor and
    [OverflowError] for a quotient too large for a float. *)
Definition int_truediv (a b : Z) : exc float :=
  if b =? 0 then Raise ZeroDivisionError
  else
    match SFdiv prec emax (Z2SF a) (Z2SF b) with
    | S754_infinity _ => Raise OverflowError
    | q => Ok (SF2Prim q)
    end.

(** The conversion of an int operand of a float operation: the nearest
    binary64 value, [OverflowError] for an int too large for a float. *)
Definition float_of_int (z : Z) : exc float :=
  match binary_normalize prec emax z 0 false with
  | S754_infinity _ => Raise OverflowError
  | x => Ok (SF2Prim x)
  end.

Definition float_of_number (n : number) : exc float :=
  match n with
  | Int z => float_of_int z
  | Float f => Ok f
  end.

(** [a / b]: two ints are divided exactly; otherwise both operands are
    converted to floats, the left one first, and then divided. *)
Definition py_truediv (a b : value) : exc float :=
  match as_number a, as_number b with
  | Some (Int x), Some (Int y) => int_truediv x y
  | Some x, Some y =>
      fx <- float_of_number x ;;
      fy <- float_of_number y ;;
      if PrimFloat.eqb fy 0%float then Raise ZeroDivisionError
      else Ok (PrimFloat.div fx fy)
  | _, _ => Raise TypeError
  end.

(** [int(f)]: truncation towards zero. *)
Definition py_int (f : float) : exc Z :=
  match Prim2SF f with
  | S754_zero _ => Ok 0
  | S754_infinity _ => Raise OverflowError
  | S754_nan => Raise ValueError
  | S754_finite s m e =>
      let a := if 0 <=? e then Z.pos m * 2 ^ e else Z.pos m / 2 ^ (- e) in
      Ok (if s then - a else a)
  end.

(** [min(x, 100)] as [get_crime_score] calls it: the first argument is kept
    unless the second is smaller. *)
Definition py_min_100 (x : float) : number :=
  if PrimFloat.ltb 100%float x then Int 100 else Float x.

(** *** Strings *)

(** Strings stand for ASCII text, on which the case conversions below are
    [str.lower()] and [str.upper()]; a byte above 127 is left as it is. *)
Definition lower_ascii (c : ascii) : ascii :=
  let n := nat_of_ascii c in
  if (65 <=? n)%nat && (n <=? 90)%nat then ascii_of_nat (n + 32) else c.

Fixpoint lower (s : string) : string :=
  match s with
  | EmptyString => EmptyString
  | String c s' => String (lower_ascii c) (lower s')
  end.

(** [v.lower()] *)
Definition py_lower (v : value) : exc string :=
  match v with
  | VStr s => Ok (lower s)
  | _ => Raise AttributeError
  end.

(** [sub in s] *)
Fixpoint contains (sub s : string) : bool :=
  String.prefix sub s
  || match s with
     | EmptyString => false
     | String _ s' => contains sub s'
     end.

(** [s.split(c)] *)
Fixpoint split_on (c : ascii) (s : string) : list string :=
  match s with
  | EmptyString => [EmptyString]
  | String a s' =>
      if Ascii.eqb a c then EmptyString :: split_on c s'
      else match split_on c s' with
           | h :: t => String a h :: t
           | [] => [String a EmptyString]
           end
  end.

(** [v.split("/")] *)
Definition py_split_slash (v : value) : exc (list string) :=
  match v with
  | VStr s => Ok (split_on "/"%char s)
  | _ => Raise AttributeError
  end.

(** ** External collaborators

    The third-party services are the environment of the program.  A request is
    identified by the endpoint and the values the program formats into its
    URL or parameters; the environment decides what comes back. *)

Inductive request : Type :=
| NominatimSearch (q : string)
| TeleportLocations (lat lon : value)
| TeleportUrbanAreaDetails (urban_area_slug : string)
| WorldBankPopulation (country_code : string)
| WorldBankLandArea (country_code : string)
| PoliceStreetCrimes (lat lng : value) (date : string)
| OverpassBuildings (radius : Z) (lat lon : value)
| CrystalRoofIncome (postcode_clean api_key : string).

(** A received response.  Its body is taken to be a JSON document, so that
    [response.json()] returns. *)
Record response : Type := {
  status_code : Z;
  json : value
}.

Inductive http_result : Type :=
| Responded (r : response)
| ConnectionFailed
| NoAnswer.

Record world : Type := {
  (** what the network answers to a GET *)
  http : request -> http_result;
  (** [pycountry.countries.search_fuzzy]: the [alpha_3] codes of the matches,
      best first; [LookupError] when there is none *)
  search_fuzzy : value -> exc (list string)
}.

Section Service.

Variable w : world.

(** [requests.get(url, ..., timeout=t)].  Without a timeout the call waits for
    an answer indefinitely. *)
Definition requests_get (req : request) (timeout : option Z) : exc response :=
  match http w req with
  | Responded r => Ok r
  | ConnectionFailed => Raise ConnectionError
  | NoAnswer =>
      match timeout with
      | Some _ => Raise Timeout
      | None => Blocked
      end
  end.

(** [response.raise_for_status()] *)
Definition raise_for_status (r : response) : exc unit :=
  if (400 <=? status_code r) && (status_code r <? 600)
  then Raise (HTTPError (status_code r))
  else Ok tt.

Definition call_api (req : request) : exc value :=
  response <- requests_get req None ;;
  if negb (status_code response =? 200)
  then Raise (HTTPException (status_code response)
                "Internal Error (API's are dead), please try again later")
  else Ok (json response).

(** *** Address validation *)

Definition accepted_place_types : list string :=
  ["residential"; "postcode"; "city"].

Definition get_address_details (address : string)
    : exc (value * bool * string) :=
  data <- call_api (NominatimSearch address) ;;
  if negb (truthy data)
  then Ok (VDict [], false, "The address: " ++ address ++ " was not found")
  else
    result <- py_getitem_int data 0 ;;
    address_details <- py_getitem_str result "address" ;;
    lat <- py_getitem_str result "lat" ;;
    address_details <- py_setitem address_details "lat" lat ;;
    lon <- py_getitem_str result "lon" ;;
    address_details <- py_setitem address_details "lon" lon ;;
    place_type <- py_getitem_str result "type" ;;
    accepted <- py_in_strs place_type accepted_place_types ;;
    if accepted
    then Ok (address_details, true, "Address is valid")
    else Ok (VDict [], false,
             "The address: " ++ address
             ++ " is invalid, please enter a residential address").

(** Returns the details of a valid address, and the rejection message (a
    [str]) of an invalid one. *)
Definition get_valid_address_details (address : string) : exc value :=
  r <- get_address_details address ;;
  let '(details, is_valid, message) := r in
  if negb is_valid then Ok (VStr message) else Ok details.

(** *** Population density *)

(** [for item in category['data']: if item['label'] == label: x = item.get('float_value')] *)
Definition scan_items (label : string) (items : list value) (x : value)
    : exc value :=
  foldM (fun x item =>
           l <- py_getitem_str item "label" ;;
           if py_eq_str l label then py_get item "float_value" VNone
           else Ok x)
        items x.

(** The body of the loop over the categories, on the pair (population, area). *)
Definition scan_category (acc : value * value) (category : value)
    : exc (value * value) :=
  let '(population, area) := acc in
  l <- py_getitem_str category "label" ;;
  if py_eq_str l "Population" then
    data <- py_getitem_str category "data" ;;
    items <- py_iter data ;;
    population <- scan_items "Population" items population ;;
    Ok (population, area)
  else
    l <- py_getitem_str category "label" ;;
    if py_eq_str l "Geography" then
      data <- py_getitem_str category "data" ;;
      items <- py_iter data ;;
      area <- scan_items "Area in square kilometers" items area ;;
      Ok (population, area)
    else Ok (population, area).

(** [if population and area: return int(population / area)], and the implicit
    [return None] otherwise. *)
Definition density_of (population area : value) : exc (option Z) :=
  if truthy population && truthy area then
    q <- py_truediv population area ;;
    d <- py_int q ;;
    Ok (Some d)
  else Ok None.

Definition get_urban_area_density (address_details : value) : exc (option Z) :=
  lat <- py_get address_details "lat" VNone ;;
  lon <- py_get address_details "lon" VNone ;;
  if negb (truthy lat) || negb (truthy lon) then Ok None
  else
    try_except
      (response <- requests_get (TeleportLocations lat lon) (Some 5) ;;
       raise_for_status response ;;;
       let data := json response in
       links <- py_get data "_links" (VDict []) ;;
       item <- py_get links "ua:item" (VDict []) ;;
       urban_area_link <- py_get item "href" VNone ;;
       if negb (truthy urban_area_link) then Ok None
       else
         parts <- py_split_slash urban_area_link ;;
         urban_area_slug <- seq_index parts (-2) ;;
         response <- requests_get (TeleportUrbanAreaDetails urban_area_slug)
                                  (Some 5) ;;
         raise_for_status response ;;;
         let details := json response in
         categories <- py_get details "categories" (VList []) ;;
         categories <- py_iter categories ;;
         r <- foldM scan_category categories (VNone, VNone) ;;
         let '(population, area) := r in
         density_of population area)
      is_RequestException
      (Ok None).

(** [data[1][0]['value'] if len(data) > 1 else None] *)
Definition world_bank_value (data : value) : exc value :=
  n <- py_len data ;;
  if 1 <? n then
    x <- py_getitem_int data 1 ;;
    y <- py_getitem_int x 0 ;;
    py_getitem_str y "value"
  else Ok VNone.

Definition get_country_density (address_details : value) : exc (option Z) :=
  country_name <- py_get address_details "country" (VStr "") ;;
  if negb (truthy country_name) then Ok None
  else
    country_code <-
      try_except
        (matches <- search_fuzzy w country_name ;;
         country <- seq_index matches 0 ;;
         Ok (Some country))
        is_LookupError
        (Ok None) ;;
    match country_code with
    | None => Ok None
    | Some country_code =>
        try_except
          (pop_response <- requests_get (WorldBankPopulation country_code)
                                        (Some 5) ;;
           raise_for_status pop_response ;;;
           let pop_data := json pop_response in
           population <- world_bank_value pop_data ;;
           area_response <- requests_get (WorldBankLandArea country_code)
                                         (Some 5) ;;
           raise_for_status area_response ;;;
           let area_data := json area_response in
           area <- world_bank_value area_data ;;
           density_of population area)
          (fun e => is_RequestException e || is_KeyError e || is_IndexError e)
          (Ok None)
    end.

Definition get_population_density_score (address_details : value) : exc Z :=
  density <- get_urban_area_density address_details ;;
  match density with
  | Some density => Ok density
  | None =>
      density <- get_country_density address_details ;;
      Ok (match density with
          | Some density => density
          | None => 5000
          end)
  end.

(** *** Crime rate *)

Definition get_crime_score (address_details : value) : exc number :=
  lat <- py_get address_details "lat" VNone ;;
  lon <- py_get address_details "lon" VNone ;;
  if negb (truthy lat) || negb (truthy lon) then Ok (Int 25)
  else
    try_except
      (crimes <- call_api (PoliceStreetCrimes lat lon "2025-02") ;;
       total_crimes <- py_len crimes ;;
       let max_crimes := 500 in
       Ok (py_min_100
             (PrimFloat.mul
                (PrimFloat.div (Z2float total_crimes) (Z2float max_crimes))
                100%float)))
      is_RequestException
      (Ok (Int 25)).

(** *** Income (not wired into the default pipeline) *)

Definition remove_spaces (s : string) : string :=
  string_of_list_ascii
    (filter (fun c => negb (Ascii.eqb c " "%char)) (list_ascii_of_string s)).

Definition upper_ascii (c : ascii) : ascii :=
  let n := nat_of_ascii c in
  if (97 <=? n)%nat && (n <=? 122)%nat then ascii_of_nat (n - 32) else c.

Definition upper (s : string) : string :=
  string_of_list_ascii (map upper_ascii (list_ascii_of_string s)).

(** [normalize(value, min_val, max_val, invert)] on ints: Python subtracts
    them exactly and rounds the quotient once. *)
Definition normalize_int (value min_val max_val : Z) (invert : bool)
    : exc float :=
  norm <- int_truediv (value - min_val) (max_val - min_val) ;;
  Ok (if invert then PrimFloat.sub 1%float norm else norm).

(** The income of the answer is an int or a float; [normalize] is applied to
    it with the int bounds 20000 and 150000. *)
Definition get_income_score (postcode api_key : string) : exc float :=
  let postcode_clean := upper (remove_spaces postcode) in
  data <- call_api (CrystalRoofIncome postcode_clean api_key) ;;
  income <- py_get data "mean_household_income" VNone ;;
  match income with
  | VNone => Raise ValueError
  | _ =>
      match as_number income with
      | Some (Int income) => normalize_int income 20000 150000 false
      | Some (Float income) =>
          normalize income (lit 20000) (lit 150000) false
      | None => Raise TypeError
      end
  end.

(** *** Residential ratio *)

Definition residential_tags : list string :=
  ["house"; "apartments"; "detached"; "semidetached_house"].

(** ['residential' in b or b in ['house', ...]] *)
Definition is_residential (b : string) : bool :=
  contains "residential" b || existsb (String.eqb b) residential_tags.

(** [el.get('tags', {}).get('building', '').lower()] *)
Definition building_tag (el : value) : exc string :=
  tags <- py_get el "tags" (VDict []) ;;
  building <- py_get tags "building" (VStr "") ;;
  py_lower building.

Definition get_residential_ratio (address : value) (radius : Z) : exc float :=
  lat <- py_get address "lat" VNone ;;
  lon <- py_get address "lon" VNone ;;
  data <- call_api (OverpassBuildings radius lat lon) ;;
  elements <- py_get data "elements" (VList []) ;;
  elements <- py_iter elements ;;
  building_tags <- mapM building_tag elements ;;
  match building_tags with
  | [] => Ok 0%float
  | _ =>
      let residential_count :=
        Z.of_nat (List.length (filter is_residential building_tags)) in
      let total_count := Z.of_nat (List.length building_tags) in
      Ok (if 0 <? total_count
          then PrimFloat.div (Z2float residential_count) (Z2float total_count)
          else 0%float)
  end.

(** *** Aggregation *)

(** The record of raw metrics of one address.  Its entries are evaluated in
    the order of the dict literal.  The record is the [dict[str, float]] that
    [evaluate_neighborhood] takes; the integer entries are written as the
    floats they convert to. *)
Definition get_neighbourhood_data (address_details : value)
    : exc (list (string * float)) :=
  population_density <- get_population_density_score address_details ;;
  crime_rate <- get_crime_score address_details ;;
  residential_ratio <- get_residential_ratio address_details 200 ;;
  Ok [ ("population_density", Z2float population_density);
       ("crime_rate", to_float crime_rate);
       ("income", 60000%float);
       ("residential_ratio", residential_ratio);
       ("noise_level", 30%float);
       ("healthcare_access", 85%float);
       ("community_engagement", 70%float);
       ("environmental_quality", 75%float) ].

Definition get_address_data (address : value) : exc (list (string * float)) :=
  get_neighbourhood_data address.

(** *** Request paths *)

(** An element of [all_addresses] in the batch path. *)
Record address_entry : Type := {
  name : string;
  details : value;
  data : list (string * float)
}.

(** An element of the list the batch path returns. *)
Record batch_entry : Type := {
  address : string;
  evaluation : EvaluationResult float
}.

Definition get_algorithm_results (addresses : list address_entry)
    : exc (list batch_entry) :=
  mapM (fun a =>
          r <- evaluate_neighborhood (data a) ;;
          Ok {| address := name a; evaluation := r |})
       addresses.

Definition get_single_address_probability (requested_address : string)
    : exc (string + EvaluationResult float) :=
  address_details <- get_valid_address_details requested_address ;;
  match address_details with
  | VStr message => Ok (inl message)
  | _ =>
      address_data <- get_address_data address_details ;;
      r <- evaluate_neighborhood address_data ;;
      Ok (inr r)
  end.

Definition get_many_addresses_probability (requested_addresses : list string)
    : exc (list batch_entry) :=
  all_addresses <-
    mapM (fun requested_address =>
            d <- get_valid_address_details requested_address ;;
            Ok {| name := requested_address; details := d; data := [] |})
         requested_addresses ;;
  all_addresses <-
    mapM (fun a =>
            d <- get_address_data (details a) ;;
            Ok {| name := name a; details := details a; data := d |})
         all_addresses ;;
  get_algorithm_results all_addresses.

End Service.

(** The record whose every metric sits at the favourable end of its range. *)
Definition best_record : list (string * float) :=
  [ ("population_density", 10000%float);
    ("crime_rate", 0%float);
    ("income", 150000%float);
    ("residential_ratio", 1%float);
    ("noise_level", 0%float);
    ("healthcare_access", 100%float);
    ("community_engagement", 100%float);
    ("environmental_quality", 100%float) ].

(** ** The scoring rule in the specification's words

    Section 4.4: normalize each of the eight metrics with its fixed
    (min, max, invert) range, then [total = sum of weight[k] * normalized[k]]
    over the eight keys, taken in the order of the table and added up by the
    [sum] of the number type. *)

Module Spec.

Local Open Scope Q_scope.

Definition metric_keys : list string :=
  [ "population_density"; "crime_rate"; "income"; "residential_ratio";
    "noise_level"; "healthcare_access"; "community_engagement";
    "environmental_quality" ].

Definition normalization_table (k : string) : Q * Q * bool :=
  if String.eqb k "population_density" then (100, 10000, false)
  else if String.eqb k "crime_rate" then (0, 500, true)
  else if String.eqb k "income" then (20000, 150000, false)
  else if String.eqb k "residential_ratio" then (0, 1, false)
  else if String.eqb k "noise_level" then (0, 100, true)
  else (0, 100, false).

Definition weight (k : string) : Q :=
  if String.eqb k "population_density" then 0.20
  else if String.eqb k "crime_rate" then 0.20
  else if String.eqb k "income" then 0.15
  else if String.eqb k "residential_ratio" then 0.08
  else if String.eqb k "noise_level" then 0.05
  else if String.eqb k "healthcare_access" then 0.30
  else if String.eqb k "community_engagement" then 0.10
  else 0.12.

Section Total.

Context {T : Type} `{Number T}.

Local Open Scope num_scope.

Definition normalized (k : string) (value : T) : T :=
  let '(lo, hi, invert) := normalization_table k in
  let r := (value - lit lo) / (lit hi - lit lo) in
  if invert then lit 1 - r else r.

Definition total (record : string -> T) : T :=
  nsum (map (fun k => lit (weight k) * normalized k (record k)) metric_keys).

End Total.

End Spec.

(** The record a dict denotes, for the keys it has. *)
Definition record_of {T : Type} `{Number T} (data : list (string * T))
    (k : string) : T :=
  match dict_get data k with
  | Some v => v
  | None => lit 0
  end.

(** ** Collaborator behaviour, as the properties below refer to it *)

(** The collaborator answers [req] with HTTP 200 and the JSON document
    [body]. *)
Definition answers (w : world) (req : request) (body : value) : Prop :=
  exists r, http w req = Responded r /\ status_code r = 200 /\ json r = body.

(** The collaborator fails on [req]: no connection, no answer, or an error
    status. *)
Definition upstream_failure (w : world) (req : request) : Prop :=
  match http w req with
  | Responded r => 400 <= status_code r < 600
  | ConnectionFailed | NoAnswer => True
  end.

(** The country-name resolver finds matches or reports that there are none. *)
Definition resolver_sound (w : world) : Prop :=
  forall v, match search_fuzzy w v with
            | Ok _ => True
            | Raise e => is_LookupError e = true
            | Blocked => False
            end.

(** The density collaborators are all down. *)
Definition density_lookups_down (w : world) : Prop :=
  (forall lat lon, upstream_failure w (TeleportLocations lat lon))
  /\ (forall code, upstream_failure w (WorldBankPopulation code))
  /\ resolver_sound w.

(** A geocoding candidate with its place type, coordinates and
    administrative fields. *)
Definition candidate (result : value) (place_type : string) (lat lon : value)
    (fields : list (string * value)) : Prop :=
  exists d,
    result = VDict d
    /\ dict_get d "address" = Some (VDict fields)
    /\ dict_get d "lat" = Some lat
    /\ dict_get d "lon" = Some lon
    /\ dict_get d "type" = Some (VStr place_type).

(** The five ranges of the normalisation table are not empty. *)
Definition table_ranges_nonzero {T : Type} `{Number T} : Prop :=
  is_zero (lit 10000 - lit 100)%num = false
  /\ is_zero (lit 500 - lit 0)%num = false
  /\ is_zero (lit 150000 - lit 20000)%num = false
  /\ is_zero (lit 1 - lit 0)%num = false
  /\ is_zero (lit 100 - lit 0)%num = false.

(** A request made with a timeout is answered with a status that
    [raise_for_status] lets through and the JSON document [body]. *)
Definition delivers (w : world) (req : request) (body : value) : Prop :=
  exists r,
    http w req = Responded r /\ raise_for_status r = Ok tt /\ json r = body.

(** The answer of the urban-area service to a coordinate lookup. *)
Definition teleport_location (href : value) : value :=
  VDict [ ("_links", VDict [ ("ua:item", VDict [ ("href", href) ]) ]) ].


(** The answer of the World Bank to an indicator lookup: metadata, then the
    list of yearly records. *)
Definition world_bank_answer (meta : value) (records : value) : value :=
  VList [ meta; records ].


(** The World Bank answers both indicators with the given documents for
    every country; the resolver knows the United Kingdom. *)
Definition world_bank_world (population_answer area_answer : value) : world
    := {|
  http req :=
    match req with
    | WorldBankPopulation _ =>
        Responded {| status_code := 200; json := population_answer |}
    | WorldBankLandArea _ =>
        Responded {| status_code := 200; json := area_answer |}
    | _ => ConnectionFailed
    end;
  search_fuzzy _ := Ok [ "GBR" ]
|}.

Definition uk_population_answer : value :=
  world_bank_answer VNone
    (VList [ VDict [ ("date", VStr "2021"); ("value", VNum (Int 67026292)) ] ]).

Definition uk_area_answer : value :=
  world_bank_answer VNone
    (VList [ VDict [ ("date", VStr "2021"); ("value", VNum (Float 241930)) ] ]).

Definition somewhere : value :=
  VDict [ ("country", VStr "United Kingdom");
          ("lat", VStr "51.5033");
          ("lon", VStr "-0.1276") ].






(** The position of a rating in the scale, from "Very Poor" upwards. *)
Definition rating_rank (rating : string) : nat :=
  if String.eqb rating "Excellent" then 4
  else if String.eqb rating "Good" then 3
  else if String.eqb rating "Average" then 2
  else if String.eqb rating "Poor" then 1
  else 0.

(** ** Fixtures: simulated collaborators *)

Definition ok_response (body : value) : http_result :=
  Responded {| status_code := 200; json := body |}.

Definition geocoded_candidate (place_type : string) : value :=
  VDict
    [ ("lat", VStr "51.5033");
      ("lon", VStr "-0.1276");
      ("type", VStr place_type);
      ("address",
       VDict [ ("city", VStr "London"); ("country", VStr "United Kingdom") ]) ].

Definition geocoded (place_type : string) : value :=
  VList [ geocoded_candidate place_type ].

Definition building (tag : string) : value :=
  VDict [ ("type", VStr "way"); ("tags", VDict [ ("building", VStr tag) ]) ].

Definition urban_area_details : value :=
  VDict
    [ ("categories",
       VList
         [ VDict [ ("label", VStr "Geography");
                   ("data",
                    VList [ VDict [ ("label", VStr "Area in square kilometers");
                                    ("float_value", VNum (Float 1572)) ] ]) ];
           VDict [ ("label", VStr "Population");
                   ("data",
                    VList [ VDict [ ("label", VStr "Population");
                                    ("float_value",
                                     VNum (Float 8900000)) ] ]) ] ]) ].

(** Every collaborator answers.  The geocoder knows nothing called
    "Atlantis", classifies "France" as a country, and resolves every other
    query to a residential address in London. *)
Definition demo_world : world := {|
  http req :=
    match req with
    | NominatimSearch q =>
        if String.eqb q "Atlantis" then ok_response (VList [])
        else if String.eqb q "France" then ok_response (geocoded "country")
        else ok_response (geocoded "residential")
    | TeleportLocations _ _ =>
        ok_response
          (VDict
             [ ("_links",
                VDict
                  [ ("ua:item",
                     VDict
                       [ ("href",
                          VStr "https://api.teleport.org/api/urban_areas/slug:london/")
                       ]) ]) ])
    | TeleportUrbanAreaDetails _ => ok_response urban_area_details
    | PoliceStreetCrimes _ _ _ =>
        ok_response (VList (repeat (VDict [ ("category", VStr "burglary") ]) 50))
    | OverpassBuildings _ _ _ =>
        ok_response
          (VDict
             [ ("elements",
                VList [ building "house"; building "Residential";
                        building "retail"; building "apartments";
                        building "yes" ]) ])
    | _ => ConnectionFailed
    end;
  search_fuzzy _ := Raise LookupError
|}.

(** The geocoder answers; every metric collaborator is unreachable. *)
Definition offline_world : world := {|
  http req :=
    match req with
    | NominatimSearch _ => ok_response (geocoded "residential")
    | _ => ConnectionFailed
    end;
  search_fuzzy _ := Ok ["GBR"]
|}.

(** As [demo_world], with the crime service answering HTTP 500. *)
Definition crime_down_world : world := {|
  http req :=
    match req with
    | PoliceStreetCrimes _ _ _ =>
        Responded {| status_code := 500; json := VNone |}
    | _ => http demo_world req
    end;
  search_fuzzy := search_fuzzy demo_world
|}.

(** As [demo_world], with the crime service never answering. *)
Definition crime_silent_world : world := {|
  http req :=
    match req with
    | PoliceStreetCrimes _ _ _ => NoAnswer
    | _ => http demo_world req
    end;
  search_fuzzy := search_fuzzy demo_world
|}.

Definition london : value :=
  VDict [ ("city", VStr "London");
          ("country", VStr "United Kingdom");
          ("lat", VStr "51.5033");
          ("lon", VStr "-0.1276") ].
(** * Properties *)

(** ** Order facts on binary64 values *)

Lemma SFcompare_antisym (x y : spec_float) :
  SFcompare y x = option_map CompOpp (SFcompare x y).
Proof.
  destruct x as [sx | sx | | sx mx ex], y as [sy | sy | | sy my ey];
    try destruct sx; try destruct sy; try reflexivity;
    cbn [SFcompare option_map]; f_equal;
    rewrite (Z.compare_antisym ex ey);
    destruct (ex ?= ey)%Z; cbn [CompOpp]; try reflexivity;
    pose proof (Pos.compare_cont_antisym mx my Eq) as E;
    cbn [CompOpp] in E; rewrite <- E; reflexivity.
Qed.

Lemma ltb_leb_false (x y : float) :
  (x <? y)%float = true -> (y <=? x)%float = false.
Proof.
  rewrite ltb_spec, leb_spec. unfold SFltb, SFleb.
  rewrite (SFcompare_antisym (Prim2SF x) (Prim2SF y)).
  destruct (SFcompare (Prim2SF x) (Prim2SF y)) as [[ | | ] | ];
    cbn; congruence.
Qed.

Lemma leb_false_ltb (x y z : float) :
  (x <=? x)%float = true -> (z <=? y)%float = true ->
  (x <=? y)%float = false -> (y <? x)%float = true.
Proof.
  rewrite ltb_spec, !leb_spec. unfold SFltb, SFleb.
  rewrite (SFcompare_antisym (Prim2SF x) (Prim2SF y)).
  destruct (Prim2SF x) as [sx | sx | | sx mx ex],
           (Prim2SF y) as [sy | sy | | sy my ey],
           (Prim2SF z) as [sz | sz | | sz mz ez];
    cbn [SFcompare]; try discriminate;
    match goal with
    | |- context [option_map CompOpp (Some ?c)] =>
        destruct c; cbn; congruence
    end.
Qed.

Ltac sf_exp_cases :=
  repeat match goal with
         | |- context [Z.compare ?a ?b] => destruct (Z.compare_spec a b)
         end;
  try (intros; reflexivity); try (intros; discriminate); try lia.

(** [a <= s] follows from [b <= s] when the exponent of [a] is below that of
    [b]. *)
Lemma leb_finite_mono (ma mb : positive) (ea eb : Z) (s : spec_float) :
  (ea < eb)%Z ->
  SFleb (S754_finite false mb eb) s = true ->
  SFleb (S754_finite false ma ea) s = true.
Proof.
  intros Hlt. unfold SFleb.
  destruct s as [b | b | | b m e]; try destruct b; cbn [SFcompare];
    sf_exp_cases.
Qed.

(** ** Literals *)

(** [lit] on binary64 yields the doubles of the program's literals. *)
Lemma lit_float_literals :
  (lit 0.2 : float) = 0.2%float /\ (lit 0.15 : float) = 0.15%float
  /\ (lit 0.08 : float) = 0.08%float /\ (lit 0.05 : float) = 0.05%float
  /\ (lit 0.3 : float) = 0.3%float /\ (lit 0.1 : float) = 0.1%float
  /\ (lit 0.12 : float) = 0.12%float /\ (lit 1.5 : float) = 1.5%float
  /\ (lit 0.8 : float) = 0.8%float /\ (lit 0.4 : float) = 0.4%float
  /\ (lit 10000 : float) = 10000%float
  /\ (lit 150000 : float) = 150000%float.
Proof. repeat split; vm_compute; reflexivity. Qed.

(** ** Rating thresholds *)

Lemma calculate_rating_float (s : float) :
  calculate_rating s =
  if (1.5 <=? s)%float then "Excellent"
  else if (0.8 <=? s)%float then "Good"
  else if (0.4 <=? s)%float then "Average"
  else if (0.2 <=? s)%float then "Poor"
  else "Very Poor".
Proof. vm_compute. reflexivity. Qed.

Lemma thresholds_ordered (s : float) :
  ((1.5 <=? s)%float = true -> (0.8 <=? s)%float = true) /\
  ((0.8 <=? s)%float = true -> (0.4 <=? s)%float = true) /\
  ((0.4 <=? s)%float = true -> (0.2 <=? s)%float = true).
Proof.
  rewrite !leb_spec.
  replace (Prim2SF 1.5) with (S754_finite false 6755399441055744 (-52))
    by (vm_compute; reflexivity).
  replace (Prim2SF 0.8) with (S754_finite false 7205759403792794 (-53))
    by (vm_compute; reflexivity).
  replace (Prim2SF 0.4) with (S754_finite false 7205759403792794 (-54))
    by (vm_compute; reflexivity).
  replace (Prim2SF 0.2) with (S754_finite false 7205759403792794 (-55))
    by (vm_compute; reflexivity).
  repeat split; apply leb_finite_mono; lia.
Qed.

(** C2.  [calculate_rating] on an arbitrary binary64 score: "Excellent" from
    1.5, "Good" on [0.8, 1.5), "Average" on [0.4, 0.8), "Poor" on [0.2, 0.4),
    and "Very Poor" for everything else, NaN included. *)
Theorem calculate_rating_thresholds (s : float) :
  (calculate_rating s = "Excellent" <-> (1.5 <=? s)%float = true) /\
  (calculate_rating s = "Good" <->
     (0.8 <=? s)%float = true /\ (s <? 1.5)%float = true) /\
  (calculate_rating s = "Average" <->
     (0.4 <=? s)%float = true /\ (s <? 0.8)%float = true) /\
  (calculate_rating s = "Poor" <->
     (0.2 <=? s)%float = true /\ (s <? 0.4)%float = true) /\
  (calculate_rating s = "Very Poor" <-> (0.2 <=? s)%float = false) /\
  calculate_rating 1.5%float = "Excellent" /\
  calculate_rating 1.4999%float = "Good" /\
  calculate_rating 0.8%float = "Good" /\
  calculate_rating 0.4%float = "Average" /\
  calculate_rating 0.2%float = "Poor" /\
  calculate_rating 0.1999%float = "Very Poor".
Proof.
  rewrite calculate_rating_float.
  destruct (thresholds_ordered s) as (M1 & M2 & M3).
  pose proof (ltb_leb_false s 1.5) as A1.
  pose proof (ltb_leb_false s 0.8) as A2.
  pose proof (ltb_leb_false s 0.4) as A3.
  assert (T1 : forall z, (z <=? s)%float = true -> (1.5 <=? s)%float = false ->
                         (s <? 1.5)%float = true)
    by (intro z; apply leb_false_ltb; vm_compute; reflexivity).
  assert (T2 : forall z, (z <=? s)%float = true -> (0.8 <=? s)%float = false ->
                         (s <? 0.8)%float = true)
    by (intro z; apply leb_false_ltb; vm_compute; reflexivity).
  assert (T3 : forall z, (z <=? s)%float = true -> (0.4 <=? s)%float = false ->
                         (s <? 0.4)%float = true)
    by (intro z; apply leb_false_ltb; vm_compute; reflexivity).
  specialize (T1 0.8%float). specialize (T2 0.4%float).
  specialize (T3 0.2%float).
  destruct (1.5 <=? s)%float, (0.8 <=? s)%float, (0.4 <=? s)%float,
           (0.2 <=? s)%float, (s <? 1.5)%float, (s <? 0.8)%float,
           (s <? 0.4)%float;
    repeat split; intros;
    repeat match goal with H : _ /\ _ |- _ => destruct H end;
    try reflexivity; try discriminate;
    try (vm_compute; reflexivity);
    try (exfalso; intuition discriminate).
Qed.

(** ** The weighted sum *)

Lemma dict_get_present {V : Type} (data : list (string * V)) (k : string) :
  dict_get data k <> None -> exists v, dict_get data k = Some v.
Proof. destruct (dict_get data k) as [v | ]; [now exists v | congruence]. Qed.

Lemma weighted_sum_unfold {T : Type} `{Number T} (n1 n2 n3 n4 n5 n6 n7 n8 : T) :
  weighted_sum
    [ ("population_density", n1); ("crime_rate", n2); ("income", n3);
      ("residential_ratio", n4); ("noise_level", n5);
      ("healthcare_access", n6); ("community_engagement", n7);
      ("environmental_quality", n8) ]
  = Ok (nsum [ lit 0.2 * n1; lit 0.2 * n2; lit 0.15 * n3; lit 0.08 * n4;
               lit 0.05 * n5; lit 0.3 * n6; lit 0.1 * n7; lit 0.12 * n8 ])%num.
Proof. reflexivity. Qed.

(** On a record with the eight keys, [evaluate_neighborhood] returns, and its
    score is the weighted sum of the specification. *)
Lemma evaluate_neighborhood_value (data : list (string * float)) :
  (forall k, In k Spec.metric_keys -> dict_get data k <> None) ->
  evaluate_neighborhood data
  = Ok {| rating := calculate_rating (Spec.total (record_of data));
          score := Spec.total (record_of data) |}.
Proof.
  intros Hkeys.
  assert (Hk : forall k, In k Spec.metric_keys ->
                         exists v, dict_get data k = Some v)
    by (intros k Hin; apply dict_get_present, Hkeys, Hin).
  cbv [Spec.metric_keys] in Hk.
  destruct (Hk "population_density") as [v1 E1]; [ cbn; tauto | ].
  destruct (Hk "crime_rate") as [v2 E2]; [ cbn; tauto | ].
  destruct (Hk "income") as [v3 E3]; [ cbn; tauto | ].
  destruct (Hk "residential_ratio") as [v4 E4]; [ cbn; tauto | ].
  destruct (Hk "noise_level") as [v5 E5]; [ cbn; tauto | ].
  destruct (Hk "healthcare_access") as [v6 E6]; [ cbn; tauto | ].
  destruct (Hk "community_engagement") as [v7 E7]; [ cbn; tauto | ].
  destruct (Hk "environmental_quality") as [v8 E8]; [ cbn; tauto | ].
  clear Hk Hkeys.
  unfold evaluate_neighborhood, normalized_scores, getitem.
  unfold Spec.total, record_of. cbv [Spec.metric_keys map].
  rewrite E1, E2, E3, E4, E5, E6, E7, E8.
  vm_compute. reflexivity.
Qed.

(** C1.  For every record with the eight metric keys, the score is the sum
    over the keys of weight times normalised value, with the fixed ranges and
    weights; the golden record scores 0.8391437451437451. *)
Theorem evaluate_neighborhood_weighted_sum :
  (forall data : list (string * float),
      (forall k, In k Spec.metric_keys -> dict_get data k <> None) ->
      evaluate_neighborhood data
      = Ok {| rating := calculate_rating (Spec.total (record_of data));
              score := Spec.total (record_of data) |})
  /\ evaluate_neighborhood golden_record
     = Ok {| rating := "Good"; score := 0.83914374514374512%float |}.
Proof.
  split; [ exact evaluate_neighborhood_value | vm_compute; reflexivity ].
Qed.

Lemma evaluate_neighborhood_weighted_sum_witness :
  evaluate_neighborhood golden_record
  = Ok {| rating := calculate_rating (Spec.total (record_of golden_record));
          score := Spec.total (record_of golden_record) |}.
Proof.
  apply (proj1 evaluate_neighborhood_weighted_sum golden_record).
  intros k Hin. cbv [Spec.metric_keys In] in Hin.
  repeat (destruct Hin as [<- | Hin]; [ vm_compute; discriminate | ]).
  contradiction.
Defined.

(** ** Normalisation *)

Lemma Prim2SF_neq (x y : float) : Prim2SF x <> Prim2SF y -> x <> y.
Proof. intros H E. apply H. now rewrite E. Qed.

Lemma normalize_Q_value (v lo hi : Q) (invert : bool) :
  (lo < hi)%Q ->
  normalize v lo hi invert
  = Ok (if invert then 1 - (v - lo) / (hi - lo) else (v - lo) / (hi - lo))%Q.
Proof.
  intros Hlt. unfold normalize. cbn [is_zero nsub ndiv lit Q_Number].
  destruct (Qeq_bool (hi - lo) 0) eqn:E; [ | reflexivity ].
  apply Qeq_bool_iff in E. lra.
Qed.

Lemma Qdiv_lt_0 (a d : Q) : (0 < d)%Q -> (a < 0)%Q -> (a / d < 0)%Q.
Proof.
  intros Hd Ha. apply Qlt_shift_div_r; [ exact Hd | lra ].
Qed.

Lemma Qdiv_gt_1 (a d : Q) : (0 < d)%Q -> (d < a)%Q -> (1 < a / d)%Q.
Proof.
  intros Hd Ha. apply Qlt_shift_div_l; [ exact Hd | lra ].
Qed.

(** C7, as the code has it: there is no clamping.  In exact arithmetic an
    input outside [lo, hi] always normalises to a value outside [0, 1], and
    [normalize(600, 0, 500, invert=True)] is -1/5.  In the program's binary64
    arithmetic the same call returns -0.19999999999999996, the rounded value
    of [1 - 1.2]: negative, and not the double -0.2. *)
Theorem normalize_no_clamping :
  (forall (v lo hi : Q) (invert : bool),
      (lo < hi)%Q -> (v < lo \/ hi < v)%Q ->
      exists r, normalize v lo hi invert = Ok r /\ (r < 0 \/ 1 < r)%Q)
  /\ (exists r, normalize 600%Q 0%Q 500%Q true = Ok r /\ (r == -0.2)%Q)
  /\ normalize 600%float 0%float 500%float true
     = Ok (-0.19999999999999996)%float
  /\ ((-0.19999999999999996) <? 0)%float = true.
Proof.
  split; [ | split; [ | split ] ].
  - intros v lo hi invert Hlt Hout.
    rewrite (normalize_Q_value v lo hi invert Hlt).
    eexists; split; [ reflexivity | ].
    assert (Hd : (0 < hi - lo)%Q) by lra.
    destruct Hout as [Hlo | Hhi].
    + pose proof (Qdiv_lt_0 (v - lo) (hi - lo) Hd ltac:(lra)).
      destruct invert; [ right | left ]; lra.
    + pose proof (Qdiv_gt_1 (v - lo) (hi - lo) Hd ltac:(lra)).
      destruct invert; [ left | right ]; lra.
  - eexists; split; [ vm_compute; reflexivity | reflexivity ].
  - vm_compute. reflexivity.
  - vm_compute. reflexivity.
Qed.

Lemma normalize_no_clamping_witness :
  exists r, normalize 600%Q 0%Q 500%Q true = Ok r /\ (r < 0 \/ 1 < r)%Q.
Proof.
  apply (proj1 normalize_no_clamping 600%Q 0%Q 500%Q true).
  - reflexivity.
  - right. reflexivity.
Defined.

(** C7 as stated fails on binary64: the result is not the double -0.2. *)
Lemma normalize_600_is_not_minus_0_2 :
  normalize 600%float 0%float 500%float true <> Ok (-0.2)%float.
Proof.
  intros H.
  assert (E : normalize 600%float 0%float 500%float true
              = Ok (-0.19999999999999996)%float) by (vm_compute; reflexivity).
  rewrite E in H.
  pose proof (f_equal (fun r => match r with Ok x => x | _ => 0%float end) H)
    as H'.
  cbv beta iota in H'. revert H'. apply Prim2SF_neq.
  vm_compute. discriminate.
Qed.

(** ** The bound on the total score *)

Ltac bind_inv H :=
  repeat match type of H with
         | bind ?m _ = Ok _ =>
             let E := fresh "E" in
             destruct m eqn:E; cbn [bind] in H; try discriminate H
         end.

Lemma Ok_inj {A : Type} (x y : A) : Ok x = Ok y -> x = y.
Proof.
  intros H.
  exact (f_equal (fun r => match r with Ok a => a | _ => x end) H).
Qed.

Lemma Raise_inj {A : Type} (x y : exn) : @Raise A x = Raise y -> x = y.
Proof.
  intros H.
  exact (f_equal (fun r => match r with Raise z => z | _ => x end) H).
Qed.

Lemma normalized_scores_shape {T : Type} `{Number T}
    (data ns : list (string * T)) :
  normalized_scores data = Ok ns ->
  exists n1 n2 n3 n4 n5 n6 n7 n8,
    ns = [ ("population_density", n1); ("crime_rate", n2); ("income", n3);
           ("residential_ratio", n4); ("noise_level", n5);
           ("healthcare_access", n6); ("community_engagement", n7);
           ("environmental_quality", n8) ].
Proof.
  unfold normalized_scores. intros Hns. bind_inv Hns.
  apply Ok_inj in Hns. subst ns. repeat eexists.
Qed.

(** C8, as the code has it.  In exact arithmetic the weights sum to 1.2, not
    1, and every record whose normalised values all lie in [0, 1] scores at
    most 1.2.  In the program's binary64 arithmetic the bound is met at the
    record whose normalised values are all 1: with the compensated [sum] of
    CPython 3.12 and later the weights sum to the double 1.2 and that record
    scores 1.2; with the left-to-right [sum] of earlier interpreters the
    weights sum to 1.2000000000000002 and that is the record's score, above
    1.2. *)
Theorem total_score_bound :
  ((nsum (map snd (CRITERIA_WEIGHTS (T := Q))) == 1.2)%Q
   /\ ~ (nsum (map snd (CRITERIA_WEIGHTS (T := Q))) == 1)%Q)
  /\ (forall data ns : list (string * Q),
         normalized_scores data = Ok ns ->
         Forall (fun kv => 0 <= snd kv <= 1)%Q ns ->
         exists r, evaluate_neighborhood data = Ok r /\ (score r <= 1.2)%Q)
  /\ nsum (map snd (CRITERIA_WEIGHTS (T := float))) = 1.2%float
  /\ (exists ns,
         normalized_scores best_record = Ok ns
         /\ forallb (fun kv => PrimFloat.eqb (snd kv) 1%float) ns = true)
  /\ evaluate_neighborhood best_record
     = Ok {| rating := "Good"; score := 1.2%float |}
  /\ float_sum_legacy (map snd (CRITERIA_WEIGHTS (T := float)))
     = 1.2000000000000002%float
  /\ @evaluate_neighborhood float float_Number_legacy best_record
     = Ok {| rating := "Good"; score := 1.2000000000000002%float |}
  /\ PrimFloat.ltb 1.2%float 1.2000000000000002%float = true.
Proof.
  split; [ | split; [ | split; [ | split; [ | split; [ | split;
    [ | split ] ] ] ] ] ].
  - split; [ reflexivity | intros H; discriminate H ].
  - intros data ns Hns Hall.
    destruct (normalized_scores_shape data ns Hns)
      as (n1 & n2 & n3 & n4 & n5 & n6 & n7 & n8 & ->).
    unfold evaluate_neighborhood. rewrite Hns. cbn [bind].
    rewrite weighted_sum_unfold. cbn [bind].
    eexists; split; [ reflexivity | ].
    cbn [score nsum nadd nmul lit Q_Number fold_left].
    repeat match goal with
           | H : Forall _ (_ :: _) |- _ => inversion H; subst; clear H
           end.
    cbn [snd] in *. lra.
  - vm_compute. reflexivity.
  - eexists. split; vm_compute; reflexivity.
  - vm_compute. reflexivity.
  - vm_compute. reflexivity.
  - vm_compute. reflexivity.
  - vm_compute. reflexivity.
Qed.

Lemma total_score_bound_witness :
  exists r,
    evaluate_neighborhood
      [ ("population_density", 10000%Q); ("crime_rate", 0%Q);
        ("income", 150000%Q); ("residential_ratio", 1%Q);
        ("noise_level", 0%Q); ("healthcare_access", 100%Q);
        ("community_engagement", 100%Q); ("environmental_quality", 100%Q) ]
    = Ok r /\ (score r <= 1.2)%Q.
Proof.
  eapply (proj1 (proj2 total_score_bound)).
  - vm_compute. reflexivity.
  - repeat constructor; cbn; discriminate.
Defined.

(** C8 as stated fails under an interpreter older than 3.12: the normalised
    values of [best_record] all lie in [0, 1], and its score is not at most
    1.2. *)
Lemma best_record_exceeds_bound :
  exists ns r,
    @normalized_scores float float_Number_legacy best_record = Ok ns
    /\ forallb (fun kv => PrimFloat.leb 0%float (snd kv)
                          && PrimFloat.leb (snd kv) 1%float) ns = true
    /\ @evaluate_neighborhood float float_Number_legacy best_record = Ok r
    /\ PrimFloat.leb (score r) 1.2%float = false.
Proof. do 2 eexists. repeat split; vm_compute; reflexivity. Qed.

(** The score of the golden record is the same under both summations. *)
Lemma legacy_sum_scores :
  @evaluate_neighborhood float float_Number_legacy golden_record
  = Ok {| rating := "Good"; score := 0.83914374514374512%float |}
  /\ evaluate_neighborhood golden_record
     = Ok {| rating := "Good"; score := 0.83914374514374512%float |}.
Proof. split; vm_compute; reflexivity. Qed.

(** ** Population density: the fallback chain *)

Lemma requests_get_failure (w : world) (req : request) (t : Z) :
  upstream_failure w req ->
  match requests_get w req (Some t) with
  | Ok r => exists s, raise_for_status r = Raise (HTTPError s)
  | Raise e => is_RequestException e = true
  | Blocked => False
  end.
Proof.
  unfold upstream_failure, requests_get.
  destruct (http w req) as [r | | ]; intros Hf; try reflexivity.
  exists (status_code r). unfold raise_for_status.
  replace (400 <=? status_code r) with true by (symmetry; apply Z.leb_le; lia).
  replace (status_code r <? 600) with true by (symmetry; apply Z.ltb_lt; lia).
  reflexivity.
Qed.

Lemma urban_lookup_down (w : world) (d : list (string * value)) :
  (forall lat lon, upstream_failure w (TeleportLocations lat lon)) ->
  get_urban_area_density w (VDict d) = Ok None.
Proof.
  intros Hdown. unfold get_urban_area_density. cbn [py_get bind].
  set (lat := match dict_get d "lat" with Some x => x | None => VNone end).
  set (lon := match dict_get d "lon" with Some x => x | None => VNone end).
  destruct (negb (truthy lat) || negb (truthy lon)); [ reflexivity | ].
  pose proof (requests_get_failure w (TeleportLocations lat lon) 5
                (Hdown lat lon)) as Hreq.
  destruct (requests_get w (TeleportLocations lat lon) (Some 5))
    as [r | e | ]; cbn [bind try_except].
  - destruct Hreq as [s ->]. reflexivity.
  - now rewrite Hreq.
  - contradiction.
Qed.

Lemma country_lookup_down (w : world) (d : list (string * value)) :
  (forall code, upstream_failure w (WorldBankPopulation code)) ->
  resolver_sound w ->
  get_country_density w (VDict d) = Ok None.
Proof.
  intros Hdown Hres. unfold get_country_density. cbn [py_get bind].
  set (country_name :=
         match dict_get d "country" with Some x => x | None => VStr "" end).
  destruct (negb (truthy country_name)); [ reflexivity | ].
  specialize (Hres country_name).
  destruct (search_fuzzy w country_name) as [matches | e | ];
    cbn [bind try_except]; [ | now rewrite Hres | contradiction ].
  destruct matches as [ | code rest ]; [ reflexivity | ].
  replace (seq_index (code :: rest) 0) with (Ok code).
  2:{ unfold seq_index. cbn [List.length].
      replace (0 <? 0) with false by reflexivity.
      replace (0 <? 0) with false by reflexivity.
      replace (Z.of_nat (S (Datatypes.length rest)) <=? 0) with false
        by (symmetry; apply Z.leb_gt; lia).
      reflexivity. }
  cbn [bind try_except].
  pose proof (requests_get_failure w (WorldBankPopulation code) 5
                (Hdown code)) as Hreq.
  destruct (requests_get w (WorldBankPopulation code) (Some 5))
    as [r | e | ]; cbn [bind try_except].
  - destruct Hreq as [s ->]. reflexivity.
  - now rewrite Hreq.
  - contradiction.
Qed.

(** C9.  When the urban-area lookup and the country-level lookup both return
    no value, [get_population_density_score] returns 5000; and they return no
    value whenever their collaborators are down. *)
Theorem population_density_fallback (w : world) (address_details : value) :
  (get_urban_area_density w address_details = Ok None ->
   get_country_density w address_details = Ok None ->
   get_population_density_score w address_details = Ok 5000)
  /\ (forall d, address_details = VDict d ->
                density_lookups_down w ->
                get_urban_area_density w address_details = Ok None
                /\ get_country_density w address_details = Ok None
                /\ get_population_density_score w address_details = Ok 5000).
Proof.
  assert (Hfallback :
            get_urban_area_density w address_details = Ok None ->
            get_country_density w address_details = Ok None ->
            get_population_density_score w address_details = Ok 5000).
  { intros Hu Hc. unfold get_population_density_score.
    rewrite Hu. cbn [bind]. rewrite Hc. reflexivity. }
  split; [ exact Hfallback | ].
  intros d -> (Hurban & Hcountry & Hres).
  pose proof (urban_lookup_down w d Hurban) as Hu.
  pose proof (country_lookup_down w d Hcountry Hres) as Hc.
  auto.
Qed.

Lemma population_density_fallback_witness :
  get_population_density_score offline_world london = Ok 5000.
Proof.
  apply (proj1 (population_density_fallback offline_world london));
    vm_compute; reflexivity.
Defined.

(** ** Provider failures that are not absorbed *)

Lemma call_api_error_status (w : world) (req : request) (r : response) :
  http w req = Responded r ->
  status_code r <> 200 ->
  call_api w req
  = Raise (HTTPException (status_code r)
             "Internal Error (API's are dead), please try again later").
Proof.
  intros Hr Hs. unfold call_api, requests_get. rewrite Hr. cbn [bind].
  replace (status_code r =? 200) with false
    by (symmetry; apply Z.eqb_neq; exact Hs).
  reflexivity.
Qed.





Lemma requests_get_delivers (w : world) (req : request) (body : value)
    (t : option Z) :
  delivers w req body ->
  exists r, requests_get w req t = Ok r
            /\ raise_for_status r = Ok tt /\ json r = body.
Proof.
  intros (r & Hr & Hs & Hb). exists r. unfold requests_get. rewrite Hr. auto.
Qed.

Lemma seq_index_head {A : Type} (x : A) (l : list A) :
  seq_index (x :: l) 0 = Ok x.
Proof.
  unfold seq_index. cbn [List.length].
  replace (0 <? 0) with false by reflexivity.
  replace (Z.of_nat (S (Datatypes.length l)) <=? 0) with false
    by (symmetry; apply Z.leb_gt; lia).
  reflexivity.
Qed.

Lemma resolve_country (w : world) (country_name : value) (code : string)
    (rest : list string) :
  search_fuzzy w country_name = Ok (code :: rest) ->
  try_except
    (matches <- search_fuzzy w country_name ;;
     country <- seq_index matches 0 ;;
     Ok (Some country))
    is_LookupError (Ok None)
  = Ok (Some code).
Proof.
  intros ->. cbn [bind]. rewrite seq_index_head. reflexivity.
Qed.












(** The crime provider on an error status: the handler written for a failing
    service is not reached, and neither is it when the service never answers,
    since [call_api] sets no timeout. *)
Lemma crime_error_status_propagates :
  get_crime_score crime_down_world london
  = Raise (HTTPException 500
             "Internal Error (API's are dead), please try again later")
  /\ get_neighbourhood_data crime_down_world london
     = Raise (HTTPException 500
                "Internal Error (API's are dead), please try again later")
  /\ get_crime_score crime_silent_world london = Blocked.
Proof. repeat split; vm_compute; reflexivity. Qed.

(** ** Address validation *)

Lemma string_app_assoc (a b c : string) :
  ((a ++ b) ++ c = a ++ (b ++ c))%string.
Proof. induction a as [ | x a IH ]; cbn; [ reflexivity | now rewrite IH ]. Qed.

Lemma prefix_app (s t : string) : String.prefix s (s ++ t) = true.
Proof.
  induction s as [ | a s IH ]; cbn.
  - now destruct t.
  - destruct (ascii_dec a a) as [ _ | N ]; [ exact IH | now elim N ].
Qed.

Lemma contains_here (sub t : string) : contains sub (sub ++ t) = true.
Proof.
  assert (U : forall s, String.prefix sub s = true -> contains sub s = true).
  { intros s Hp. destruct s; cbn [contains]; now rewrite Hp. }
  apply U, prefix_app.
Qed.

Lemma contains_app (sub pre t : string) :
  contains sub (pre ++ sub ++ t) = true.
Proof.
  induction pre as [ | a pre IH ].
  - cbn [append]. apply contains_here.
  - cbn [append contains]. rewrite IH. apply orb_true_r.
Qed.

Lemma dict_get_set_same {V : Type} (d : list (string * V)) (k : string)
    (v : V) :
  dict_get (dict_set d k v) k = Some v.
Proof.
  induction d as [ | [k' v'] d IH ]; cbn.
  - now rewrite String.eqb_refl.
  - destruct (String.eqb k' k) eqn:E; cbn.
    + now rewrite String.eqb_refl.
    + now rewrite E.
Qed.

Lemma dict_get_set_other {V : Type} (d : list (string * V)) (k k' : string)
    (v : V) :
  k <> k' -> dict_get (dict_set d k v) k' = dict_get d k'.
Proof.
  intros Hne. induction d as [ | [k0 v0] d IH ]; cbn.
  - destruct (String.eqb k k') eqn:E; [ | reflexivity ].
    apply String.eqb_eq in E. contradiction.
  - destruct (String.eqb k0 k) eqn:E; cbn.
    + apply String.eqb_eq in E. subst k0.
      destruct (String.eqb k k') eqn:E'; [ | reflexivity ].
      apply String.eqb_eq in E'. contradiction.
    + now rewrite IH.
Qed.

Lemma call_api_answers (w : world) (req : request) (body : value) :
  answers w req body -> call_api w req = Ok body.
Proof.
  intros (r & Hr & Hs & Hb). unfold call_api, requests_get.
  rewrite Hr. cbn [bind]. rewrite Hs, Hb. reflexivity.
Qed.

Lemma existsb_eqb_In (s : string) (l : list string) :
  existsb (String.eqb s) l = true <-> In s l.
Proof.
  rewrite existsb_exists. split.
  - intros (x & Hin & E). apply String.eqb_eq in E. now subst.
  - intros Hin. exists s. split; [ exact Hin | apply String.eqb_refl ].
Qed.

(** What the validator returns on the best geocoding candidate. *)
Lemma get_valid_address_details_candidate (w : world) (address : string)
    (result : value) (rest : list value) (place_type : string)
    (lat lon : value) (fields : list (string * value)) :
  answers w (NominatimSearch address) (VList (result :: rest)) ->
  candidate result place_type lat lon fields ->
  get_valid_address_details w address
  = Ok (if existsb (String.eqb place_type) accepted_place_types
        then VDict (dict_set (dict_set fields "lat" lat) "lon" lon)
        else VStr ("The address: " ++ address
                   ++ " is invalid, please enter a residential address")).
Proof.
  intros Hans (d & -> & Haddr & Hlat & Hlon & Htype).
  unfold get_valid_address_details, get_address_details.
  rewrite (call_api_answers w _ _ Hans). cbn [bind truthy negb].
  cbn [py_getitem_int]. rewrite seq_index_head. cbn [bind].
  cbn [py_getitem_str]. unfold getitem.
  rewrite Haddr, Hlat, Hlon, Htype. cbn [bind py_setitem py_in_strs].
  destruct (existsb (String.eqb place_type) accepted_place_types);
    reflexivity.
Qed.

(** C5.  On a geocoder answer, the validator returns the address details with
    the candidate's coordinates exactly when the place type is residential,
    postcode or city; it returns a message containing "not found" when there
    is no candidate and one containing "invalid" when the place type is not
    accepted.  Either message is a returned value. *)
Theorem validator_outcomes (w : world) (address : string) :
  (answers w (NominatimSearch address) (VList []) ->
   exists message,
     get_valid_address_details w address = Ok (VStr message)
     /\ contains "not found" message = true)
  /\ (forall result rest place_type lat lon fields,
         answers w (NominatimSearch address) (VList (result :: rest)) ->
         candidate result place_type lat lon fields ->
         ((exists details,
              get_valid_address_details w address = Ok (VDict details)
              /\ dict_get details "lat" = Some lat
              /\ dict_get details "lon" = Some lon)
          <-> In place_type accepted_place_types)
         /\ (~ In place_type accepted_place_types ->
             exists message,
               get_valid_address_details w address = Ok (VStr message)
               /\ contains "invalid" message = true)).
Proof.
  split.
  - intros Hans. unfold get_valid_address_details, get_address_details.
    rewrite (call_api_answers w _ _ Hans). cbn [bind truthy negb].
    eexists; split; [ reflexivity | ].
    replace ("The address: " ++ address ++ " was not found")%string
      with (("The address: " ++ address ++ " was ") ++ "not found" ++ "")%string.
    + apply contains_app.
    + now rewrite !string_app_assoc.
  - intros result rest place_type lat lon fields Hans Hcand.
    rewrite (get_valid_address_details_candidate
               w address result rest place_type lat lon fields Hans Hcand).
    pose proof (existsb_eqb_In place_type accepted_place_types) as Hin.
    destruct (existsb (String.eqb place_type) accepted_place_types).
    + split.
      * split; [ intros _; now apply Hin | ].
        intros _. eexists; split; [ reflexivity | ].
        split.
        -- rewrite dict_get_set_other by discriminate.
           apply dict_get_set_same.
        -- apply dict_get_set_same.
      * intros Hn. elim Hn. now apply Hin.
    + split.
      * split.
        -- intros (details & Hd & _). discriminate Hd.
        -- intros H. apply Hin in H. discriminate H.
      * intros _. eexists; split; [ reflexivity | ].
        replace ("The address: " ++ address
                 ++ " is invalid, please enter a residential address")%string
          with (("The address: " ++ address ++ " is ")
                  ++ "invalid" ++ ", please enter a residential address")%string.
        -- apply contains_app.
        -- now rewrite !string_app_assoc.
Qed.

Lemma validator_outcomes_witness :
  (exists message,
      get_valid_address_details demo_world "Atlantis" = Ok (VStr message)
      /\ contains "not found" message = true)
  /\ (exists details,
         get_valid_address_details demo_world "10 Downing Street"
         = Ok (VDict details)
         /\ dict_get details "lat" = Some (VStr "51.5033")
         /\ dict_get details "lon" = Some (VStr "-0.1276")).
Proof.
  split.
  - apply (proj1 (validator_outcomes demo_world "Atlantis")).
    exists {| status_code := 200; json := VList [] |}.
    repeat split.
  - destruct (proj2 (validator_outcomes demo_world "10 Downing Street")
                (geocoded_candidate "residential") [] "residential"
                (VStr "51.5033") (VStr "-0.1276")
                [ ("city", VStr "London");
                  ("country", VStr "United Kingdom") ])
      as [[_ Haccepted] _].
    + exists {| status_code := 200; json := geocoded "residential" |}.
      repeat split.
    + eexists. repeat split.
    + apply Haccepted. cbn. tauto.
Defined.

(** ** Residential ratio *)







(** ** The batch path *)

Lemma mapM_Ok {A B : Type} (f : A -> exc B) (l : list A) (l' : list B) :
  mapM f l = Ok l' -> Forall2 (fun x y => f x = Ok y) l l'.
Proof.
  revert l'. induction l as [ | x l IH ]; intros l' H; cbn [mapM] in H.
  - apply Ok_inj in H. subst. constructor.
  - destruct (f x) as [y | e | ] eqn:Ex; cbn [bind] in H; try discriminate H.
    destruct (mapM f l) as [ys | e | ] eqn:El; cbn [bind] in H;
      try discriminate H.
    apply Ok_inj in H. subst. constructor; [ exact Ex | now apply IH ].
Qed.

Lemma Forall2_map_eq {A B C : Type} (R : A -> B -> Prop) (g : B -> C)
    (h : A -> C) (l : list A) (l' : list B) :
  Forall2 R l l' -> (forall x y, R x y -> g y = h x) -> map g l' = map h l.
Proof.
  intros HF HR. induction HF as [ | x y l l' Hxy _ IH ]; cbn.
  - reflexivity.
  - now rewrite (HR x y Hxy), IH.
Qed.

(** The three passes of the batch path, when it returns. *)
Lemma get_many_addresses_probability_Ok (w : world) (requested : list string)
    (results : list batch_entry) :
  get_many_addresses_probability w requested = Ok results ->
  exists validated fetched : list address_entry,
    Forall2 (fun a e => get_valid_address_details w a = Ok (details e)
                        /\ name e = a) requested validated
    /\ Forall2 (fun e e' => get_address_data w (details e) = Ok (data e')
                            /\ name e' = name e) validated fetched
    /\ Forall2 (fun e r => address r = name e) fetched results.
Proof.
  unfold get_many_addresses_probability, get_algorithm_results.
  intros H. bind_inv H.
  match goal with
  | E1 : mapM _ requested = Ok ?v, E2 : mapM _ ?v = Ok ?f |- _ =>
      exists v, f; apply mapM_Ok in E1, E2
  end.
  apply mapM_Ok in H.
  repeat split.
  - eapply Forall2_impl; [ | eassumption ].
    intros ra ent He. cbn beta in He.
    destruct (get_valid_address_details w ra) as [d | | ]; cbn [bind] in He;
      try discriminate He.
    apply Ok_inj in He. subst ent. now split.
  - eapply Forall2_impl; [ | eassumption ].
    intros ent ent' He. cbn beta in He.
    destruct (get_address_data w (details ent)) as [d | | ];
      cbn [bind] in He; try discriminate He.
    apply Ok_inj in He. subst ent'. now split.
  - eapply Forall2_impl; [ | eassumption ].
    intros ent r He. cbn beta in He.
    destruct (evaluate_neighborhood (data ent)) as [x | | ];
      cbn [bind] in He; try discriminate He.
    apply Ok_inj in He. now subst r.
Qed.

Lemma mapM_total {A B : Type} (f : A -> exc B) (l : list A) :
  Forall (fun x => exists y, f x = Ok y) l -> exists l', mapM f l = Ok l'.
Proof.
  induction 1 as [ | x l [y Hy] _ [l' IH] ]; cbn [mapM].
  - now exists [].
  - exists (y :: l'). rewrite Hy. cbn [bind]. rewrite IH. reflexivity.
Qed.

Lemma Forall2_Forall {A B : Type} (R : A -> B -> Prop) (P : A -> Prop)
    (Q : B -> Prop) (l : list A) (l' : list B) :
  Forall2 R l l' -> Forall P l -> (forall x y, R x y -> P x -> Q y) ->
  Forall Q l'.
Proof.
  intros HF HP HQ. induction HF as [ | x y l l' Hxy _ IH ].
  - constructor.
  - inversion HP; subst. constructor; [ eapply HQ; eassumption | auto ].
Qed.

(** A rejection message has no [get] method: the first provider raises. *)
Lemma get_address_data_message (w : world) (message : string) :
  get_address_data w (VStr message) = Raise AttributeError.
Proof. reflexivity. Qed.

Lemma get_neighbourhood_data_keys (w : world) (address_details : value)
    (record : list (string * float)) :
  get_neighbourhood_data w address_details = Ok record ->
  forall k, In k Spec.metric_keys -> dict_get record k <> None.
Proof.
  unfold get_neighbourhood_data. intros H. bind_inv H.
  apply Ok_inj in H. subst record.
  intros k Hin. cbv [Spec.metric_keys In] in Hin.
  repeat (destruct Hin as [<- | Hin]; [ cbn; discriminate | ]).
  contradiction.
Qed.

Lemma get_address_details_valid (w : world) (address : string)
    (details : value) (message : string) :
  get_address_details w address = Ok (details, true, message) ->
  exists d, details = VDict d.
Proof.
  unfold get_address_details. intros H.
  destruct (call_api w (NominatimSearch address)) as [data | | ];
    cbn [bind] in H; try discriminate H.
  destruct (negb (truthy data)).
  { apply Ok_inj in H.
    apply (f_equal (fun p => snd (fst p))) in H. discriminate H. }
  bind_inv H.
  match goal with
  | E : py_setitem _ "lon" _ = Ok ?x |- _ =>
      unfold py_setitem in E;
      match type of E with
      | match ?v with _ => _ end = _ => destruct v; try discriminate E
      end;
      apply Ok_inj in E
  end.
  match type of H with
  | (if ?b then _ else _) = _ => destruct b
  end; apply Ok_inj in H.
  - apply (f_equal (fun p => fst (fst p))) in H. cbn in H. subst.
    eexists. reflexivity.
  - apply (f_equal (fun p => snd (fst p))) in H. discriminate H.
Qed.

(** The validator returns either the details of the address, a dict, or a
    rejection message, a string. *)
Lemma get_valid_address_details_cases (w : world) (address : string)
    (v : value) :
  get_valid_address_details w address = Ok v ->
  (exists d, v = VDict d) \/ (exists message, v = VStr message).
Proof.
  unfold get_valid_address_details. intros H.
  destruct (get_address_details w address) as [[[details valid] message] | | ]
    eqn:E; cbn [bind] in H; try discriminate H.
  destruct valid; cbn [negb] in H; apply Ok_inj in H; subst v.
  - left. eapply get_address_details_valid. exact E.
  - right. eexists. reflexivity.
Qed.

(** C4, as the code has it.  Whenever the batch path returns, it returns one
    result per requested address, in the order of the request, each tagged
    with its address; and it returns whenever every address validates and its
    metrics can be fetched. *)
Theorem batch_results_in_order (w : world) (requested : list string) :
  (forall results,
      get_many_addresses_probability w requested = Ok results ->
      List.length results = List.length requested
      /\ map address results = requested)
  /\ (Forall (fun a => exists d record,
                  get_valid_address_details w a = Ok d
                  /\ get_address_data w d = Ok record) requested ->
      exists results, get_many_addresses_probability w requested = Ok results).
Proof.
  split.
  - intros results H.
    destruct (get_many_addresses_probability_Ok w requested results H)
      as (validated & fetched & H1 & H2 & H3).
    assert (Hmap : map address results = requested).
    { rewrite (Forall2_map_eq _ address name fetched results H3)
        by (intros; assumption).
      rewrite (Forall2_map_eq _ name name validated fetched H2)
        by (intros ? ? [_ E]; exact E).
      rewrite (Forall2_map_eq _ name (fun a => a) requested validated H1)
        by (intros ? ? [_ E]; exact E).
      apply map_id. }
    split; [ | exact Hmap ].
    rewrite <- Hmap. now rewrite length_map.
  - intros Hall. unfold get_many_addresses_probability.
    destruct (mapM_total
                (fun requested_address =>
                   d <- get_valid_address_details w requested_address ;;
                   Ok {| name := requested_address; details := d;
                         data := [] |})
                requested) as [validated Hv].
    { eapply Forall_impl; [ | exact Hall ].
      intros a (d & _ & -> & _). cbn [bind]. eexists. reflexivity. }
    rewrite Hv. cbn [bind].
    assert (Hfetch : Forall (fun e => exists record,
                                 get_address_data w (details e) = Ok record)
                            validated).
    { apply mapM_Ok in Hv.
      eapply Forall2_Forall; [ exact Hv | exact Hall | ].
      intros a e He (d & record & Hd & Hr). cbn beta in He.
      rewrite Hd in He. cbn [bind] in He. apply Ok_inj in He. subst e.
      now exists record. }
    destruct (mapM_total
                (fun a =>
                   d <- get_address_data w (details a) ;;
                   Ok {| name := name a; details := details a; data := d |})
                validated) as [fetched Hf].
    { eapply Forall_impl; [ | exact Hfetch ].
      intros e (record & ->). cbn [bind]. eexists. reflexivity. }
    rewrite Hf. cbn [bind].
    unfold get_algorithm_results. apply mapM_total.
    apply mapM_Ok in Hf.
    eapply Forall2_Forall; [ exact Hf | exact Hfetch | ].
    intros e e' He (record & Hr). cbn beta in He.
    rewrite Hr in He. cbn [bind] in He. apply Ok_inj in He. subst e'.
    cbn [data].
    rewrite (evaluate_neighborhood_value record
               (get_neighbourhood_data_keys w (details e) record Hr)).
    cbn [bind]. eexists. reflexivity.
Qed.

Lemma batch_results_in_order_witness :
  exists results,
    get_many_addresses_probability demo_world
      [ "10 Downing Street"; "221B Baker Street" ] = Ok results
    /\ List.length results = 2%nat
    /\ map address results = [ "10 Downing Street"; "221B Baker Street" ].
Proof.
  destruct (batch_results_in_order demo_world
              [ "10 Downing Street"; "221B Baker Street" ])
    as [Hordered Hreturns].
  destruct Hreturns as [results Hres].
  - repeat constructor; do 2 eexists; split; vm_compute; reflexivity.
  - exists results. split; [ exact Hres | ]. exact (Hordered results Hres).
Defined.

(** C4 as stated fails: a batch with an address the geocoder does not know
    returns no list. *)
Lemma batch_with_rejected_address_raises :
  get_many_addresses_probability demo_world [ "10 Downing Street"; "Atlantis" ]
  = Raise AttributeError
  /\ ~ (exists results,
           get_many_addresses_probability demo_world
             [ "10 Downing Street"; "Atlantis" ] = Ok results
           /\ List.length results = 2%nat).
Proof.
  assert (H : get_many_addresses_probability demo_world
                [ "10 Downing Street"; "Atlantis" ] = Raise AttributeError)
    by (vm_compute; reflexivity).
  split; [ exact H | ].
  intros (results & Hres & _). rewrite H in Hres. discriminate Hres.
Qed.

(** C6.  The batch path hands a rejection message to [get_address_data] as it
    stands, and the first provider raises on it; so the batch returns only
    when every requested address validates, and a batch of one rejected
    address raises [AttributeError]. *)
Theorem batch_rejection_unguarded (w : world) (requested : list string) :
  (forall message, get_address_data w (VStr message) = Raise AttributeError)
  /\ (forall results,
         get_many_addresses_probability w requested = Ok results ->
         Forall (fun a => exists d,
                     get_valid_address_details w a = Ok (VDict d)) requested)
  /\ (forall a message,
         In a requested ->
         get_valid_address_details w a = Ok (VStr message) ->
         forall results,
           get_many_addresses_probability w requested <> Ok results)
  /\ (forall a message,
         requested = [a] ->
         get_valid_address_details w a = Ok (VStr message) ->
         get_many_addresses_probability w requested = Raise AttributeError).
Proof.
  assert (Hvalid : forall results,
             get_many_addresses_probability w requested = Ok results ->
             Forall (fun a => exists d,
                         get_valid_address_details w a = Ok (VDict d))
                    requested).
  { intros results H.
    destruct (get_many_addresses_probability_Ok w requested results H)
      as (validated & fetched & H1 & H2 & _).
    clear H. revert fetched H2.
    induction H1 as [ | a e l l' [Ha _] _ IH ]; intros fetched H2.
    - constructor.
    - inversion H2 as [ | e0 e' l0 fetched' [He _] Hrest ]; subst.
      constructor; [ | eapply IH; exact Hrest ].
      destruct (get_valid_address_details_cases w a (details e) Ha)
        as [[d Hd] | [message Hm]].
      + exists d. now rewrite <- Hd.
      + rewrite Hm, get_address_data_message in He. discriminate He. }
  split; [ intros message; apply get_address_data_message | ].
  split; [ exact Hvalid | ].
  split.
  - intros a message Hin Hrej results H.
    pose proof (Hvalid results H) as Hall.
    rewrite Forall_forall in Hall. destruct (Hall a Hin) as [d Hd].
    rewrite Hrej in Hd. discriminate Hd.
  - intros a message -> Hrej. unfold get_many_addresses_probability.
    cbn [mapM bind]. rewrite Hrej. cbn [bind mapM details].
    rewrite get_address_data_message. reflexivity.
Qed.

Lemma batch_rejection_unguarded_witness :
  get_many_addresses_probability demo_world [ "France" ] = Raise AttributeError
  /\ forall results,
       get_many_addresses_probability demo_world
         [ "10 Downing Street"; "France" ] <> Ok results.
Proof.
  destruct (batch_rejection_unguarded demo_world [ "France" ])
    as (_ & _ & _ & Hone).
  destruct (batch_rejection_unguarded demo_world
              [ "10 Downing Street"; "France" ]) as (_ & _ & Hnone & _).
  split.
  - apply (Hone "France"
             "The address: France is invalid, please enter a residential address");
      [ reflexivity | vm_compute; reflexivity ].
  - apply (Hnone "France"
             "The address: France is invalid, please enter a residential address");
      [ cbn; tauto | vm_compute; reflexivity ].
Defined.

(** * Further properties of the code *)

(** ** The order on binary64 values *)

Ltac sf_cmp_cases :=
  repeat match goal with
         | |- context [Z.compare ?a ?b] => destruct (Z.compare_spec a b)
         | |- context [Pos.compare_cont Eq ?a ?b] =>
             let H := fresh "H" in
             pose proof (Pos.compare_spec a b) as H;
             change (Pos.compare a b) with (Pos.compare_cont Eq a b) in H;
             destruct H
         end.

Lemma SFleb_trans (x y z : spec_float) :
  SFleb x y = true -> SFleb y z = true -> SFleb x z = true.
Proof.
  unfold SFleb.
  destruct x as [sx | sx | | sx mx ex], y as [sy | sy | | sy my ey],
           z as [sz | sz | | sz mz ez];
    try destruct sx; try destruct sy; try destruct sz;
    cbn [SFcompare]; try (intros; reflexivity); try (intros; discriminate).
  all: sf_cmp_cases; cbn [CompOpp];
    try (intros; reflexivity); try (intros; discriminate); try lia.
Qed.

Lemma leb_trans (x y z : float) :
  (x <=? y)%float = true -> (y <=? z)%float = true -> (x <=? z)%float = true.
Proof. rewrite !leb_spec. apply SFleb_trans. Qed.

(** ** Scoring core *)

(** X1.  In exact arithmetic [normalize] raises [ZeroDivisionError] exactly
    when the range is empty, and otherwise the plain and the inverted result
    add up to 1. *)
Theorem normalize_zero_range (v lo hi : Q) :
  (forall invert,
      normalize v lo hi invert = Raise ZeroDivisionError <-> (lo == hi)%Q)
  /\ (~ (lo == hi)%Q ->
      exists a b,
        normalize v lo hi false = Ok a /\ normalize v lo hi true = Ok b
        /\ (a + b == 1)%Q).
Proof.
  split.
  - intros invert. unfold normalize. cbn [is_zero nsub ndiv lit Q_Number].
    destruct (Qeq_bool (hi - lo) 0) eqn:E.
    + apply Qeq_bool_iff in E. split; [ intros _; lra | reflexivity ].
    + apply Qeq_bool_neq in E. split; [ discriminate | intros H; lra ].
  - intros Hne. unfold normalize. cbn [is_zero nsub ndiv lit Q_Number].
    destruct (Qeq_bool (hi - lo) 0) eqn:E.
    + apply Qeq_bool_iff in E. elim Hne. lra.
    + do 2 eexists. repeat split. ring.
Qed.

Lemma normalize_zero_range_witness :
  exists a b,
    normalize 30%Q 0%Q 100%Q false = Ok a /\ normalize 30%Q 0%Q 100%Q true = Ok b
    /\ (a + b == 1)%Q.
Proof.
  apply (proj2 (normalize_zero_range 30%Q 0%Q 100%Q)).
  intros H. discriminate H.
Defined.

Lemma Qdiv_le_mono (a b d : Q) : (0 < d)%Q -> (a <= b)%Q -> (a / d <= b / d)%Q.
Proof.
  intros Hd Hab. apply Qle_shift_div_r; [ exact Hd | ].
  setoid_replace (b / d * d)%Q with b by (field; lra). exact Hab.
Qed.

(** X2.  In exact arithmetic, over a range [lo < hi]: an input inside the
    range normalises into [0, 1]; the plain result grows with the input and
    the inverted result falls. *)
Theorem normalize_in_range (lo hi : Q) :
  (lo < hi)%Q ->
  (forall v invert,
      (lo <= v <= hi)%Q ->
      exists r, normalize v lo hi invert = Ok r /\ (0 <= r <= 1)%Q)
  /\ (forall v1 v2 r1 r2,
         (v1 <= v2)%Q ->
         normalize v1 lo hi false = Ok r1 ->
         normalize v2 lo hi false = Ok r2 -> (r1 <= r2)%Q)
  /\ (forall v1 v2 r1 r2,
         (v1 <= v2)%Q ->
         normalize v1 lo hi true = Ok r1 ->
         normalize v2 lo hi true = Ok r2 -> (r2 <= r1)%Q).
Proof.
  intros Hlt. assert (Hd : (0 < hi - lo)%Q) by lra.
  split; [ | split ].
  - intros v invert [Hlo Hhi]. rewrite (normalize_Q_value v lo hi invert Hlt).
    eexists; split; [ reflexivity | ].
    pose proof (Qdiv_le_mono 0 (v - lo) (hi - lo) Hd ltac:(lra)) as H0.
    pose proof (Qdiv_le_mono (v - lo) (hi - lo) (hi - lo) Hd ltac:(lra)) as H1.
    setoid_replace (0 / (hi - lo))%Q with 0%Q in H0 by (field; lra).
    setoid_replace ((hi - lo) / (hi - lo))%Q with 1%Q in H1 by (field; lra).
    destruct invert; lra.
  - intros v1 v2 r1 r2 Hv H1 H2.
    rewrite (normalize_Q_value v1 lo hi false Hlt) in H1.
    rewrite (normalize_Q_value v2 lo hi false Hlt) in H2.
    apply Ok_inj in H1, H2. subst r1 r2.
    apply Qdiv_le_mono; lra.
  - intros v1 v2 r1 r2 Hv H1 H2.
    rewrite (normalize_Q_value v1 lo hi true Hlt) in H1.
    rewrite (normalize_Q_value v2 lo hi true Hlt) in H2.
    apply Ok_inj in H1, H2. subst r1 r2.
    pose proof (Qdiv_le_mono (v1 - lo) (v2 - lo) (hi - lo) Hd ltac:(lra)).
    lra.
Qed.

Lemma normalize_in_range_witness :
  exists r, normalize 50%Q 0%Q 500%Q true = Ok r /\ (0 <= r <= 1)%Q.
Proof.
  apply (proj1 (normalize_in_range 0%Q 500%Q ltac:(reflexivity))).
  split; discriminate.
Defined.

Lemma normalize_nonzero_range {T : Type} `{Number T} (v lo hi : T)
    (invert : bool) :
  is_zero (hi - lo)%num = false ->
  exists r, normalize v lo hi invert = Ok r.
Proof.
  intros E. unfold normalize. rewrite E. eexists. reflexivity.
Qed.

Lemma bind_Ok {A B : Type} (a : A) (k : A -> exc B) : bind (Ok a) k = k a.
Proof. reflexivity. Qed.

Lemma bind_Raise {A B : Type} (e : exn) (k : A -> exc B) :
  bind (Raise e) k = Raise e.
Proof. reflexivity. Qed.

Lemma normalized_scores_missing_key {T : Type} `{Number T}
    (data : list (string * T)) :
  table_ranges_nonzero ->
  (exists k, In k Spec.metric_keys /\ dict_get data k = None) ->
  normalized_scores data = Raise KeyError.
Proof.
  intros (R1 & R2 & R3 & R4 & R5) (k & Hin & Hk).
  unfold normalized_scores, getitem.
  repeat match goal with
         | |- context [dict_get data ?key] =>
             lazymatch goal with
             | H : dict_get data key = _ |- _ => fail
             | _ => idtac
             end;
             let E := fresh "E" in
             destruct (dict_get data key) eqn:E; cbv beta iota;
             [ rewrite bind_Ok | rewrite bind_Raise; reflexivity ];
             match goal with
             | |- context [@normalize _ _ ?v ?lo ?hi ?inv] =>
                 let r := fresh "r" in
                 let Hr := fresh "Hr" in
                 destruct (normalize_nonzero_range v lo hi inv) as [r Hr];
                 [ assumption | rewrite Hr, bind_Ok ]
             end
         end.
  cbv [Spec.metric_keys In] in Hin.
  repeat (destruct Hin as [<- | Hin]; [ congruence | ]).
  contradiction.
Qed.

Lemma float_table_ranges_nonzero : table_ranges_nonzero (T := float).
Proof. repeat split; vm_compute; reflexivity. Qed.

(** X3.  A record that lacks one of the eight metric keys makes
    [evaluate_neighborhood] raise [KeyError]. *)
Theorem evaluate_neighborhood_missing_key (data : list (string * float)) :
  (exists k, In k Spec.metric_keys /\ dict_get data k = None) ->
  evaluate_neighborhood data = Raise KeyError.
Proof.
  intros Hmissing. unfold evaluate_neighborhood.
  rewrite (normalized_scores_missing_key data float_table_ranges_nonzero
             Hmissing).
  apply bind_Raise.
Qed.

Lemma evaluate_neighborhood_missing_key_witness :
  evaluate_neighborhood [ ("population_density", 5000%float);
                          ("crime_rate", 50%float) ] = Raise KeyError.
Proof.
  apply evaluate_neighborhood_missing_key.
  exists "income". split; [ cbn; tauto | reflexivity ].
Defined.

(** X4.  For every number type, [evaluate_neighborhood] reads the eight metric
    keys only: two records that agree on them get the same outcome. *)
Theorem evaluate_neighborhood_reads_metric_keys {T : Type} `{Number T}
    (data1 data2 : list (string * T)) :
  (forall k, In k Spec.metric_keys -> dict_get data1 k = dict_get data2 k) ->
  evaluate_neighborhood data1 = evaluate_neighborhood data2.
Proof.
  intros Hagree.
  unfold evaluate_neighborhood, normalized_scores, getitem.
  assert (Hin : forall k, existsb (String.eqb k) Spec.metric_keys = true ->
                          dict_get data1 k = dict_get data2 k).
  { intros k Hk. apply Hagree. apply existsb_eqb_In. exact Hk. }
  rewrite (Hin "population_density"), (Hin "crime_rate"), (Hin "income"),
    (Hin "residential_ratio"), (Hin "noise_level"),
    (Hin "healthcare_access"), (Hin "community_engagement"),
    (Hin "environmental_quality") by reflexivity.
  reflexivity.
Qed.

Lemma evaluate_neighborhood_reads_metric_keys_witness :
  evaluate_neighborhood (("postcode", 7%float) :: golden_record)
  = evaluate_neighborhood golden_record.
Proof.
  apply evaluate_neighborhood_reads_metric_keys.
  intros k Hin. cbv [Spec.metric_keys In] in Hin.
  repeat (destruct Hin as [<- | Hin]; [ reflexivity | ]).
  contradiction.
Defined.

(** X5.  A higher score never gets a lower rating: [calculate_rating] is
    monotone from binary64 scores to the rating scale. *)
Theorem calculate_rating_monotone (s1 s2 : float) :
  (s1 <=? s2)%float = true ->
  (rating_rank (calculate_rating s1) <= rating_rank (calculate_rating s2))%nat.
Proof.
  intros Hle. rewrite !calculate_rating_float.
  pose proof (fun c H => leb_trans c s1 s2 H Hle) as Hup.
  pose proof (Hup 1.5%float) as U1. pose proof (Hup 0.8%float) as U2.
  pose proof (Hup 0.4%float) as U3. pose proof (Hup 0.2%float) as U4.
  clear Hup.
  destruct (1.5 <=? s1)%float; [ rewrite U1 by reflexivity; apply le_n | ].
  destruct (0.8 <=? s1)%float.
  { rewrite U2 by reflexivity. destruct (1.5 <=? s2)%float; cbn; lia. }
  destruct (0.4 <=? s1)%float.
  { rewrite U3 by reflexivity.
    destruct (1.5 <=? s2)%float, (0.8 <=? s2)%float; cbn; lia. }
  destruct (0.2 <=? s1)%float.
  { rewrite U4 by reflexivity.
    destruct (1.5 <=? s2)%float, (0.8 <=? s2)%float, (0.4 <=? s2)%float;
      cbn; lia. }
  cbn. lia.
Qed.

Lemma calculate_rating_monotone_witness :
  (rating_rank (calculate_rating 0.39%float)
   <= rating_rank (calculate_rating 0.83914374514374512%float))%nat.
Proof.
  apply calculate_rating_monotone. vm_compute. reflexivity.
Defined.

(** X6.  For every number type, the weighted sum is defined on whatever
    [normalized_scores] returns (the two dicts have the same keys), so
    [evaluate_neighborhood] returns exactly when [normalized_scores] does, and
    raises what it raises. *)
Theorem evaluate_neighborhood_outcome {T : Type} `{Number T}
    (data : list (string * T)) :
  (forall ns, normalized_scores data = Ok ns ->
              exists total,
                weighted_sum ns = Ok total
                /\ evaluate_neighborhood data
                   = Ok {| rating := calculate_rating total;
                           score := total |})
  /\ (forall e, normalized_scores data = Raise e ->
                evaluate_neighborhood data = Raise e).
Proof.
  split.
  - intros ns Hns.
    destruct (normalized_scores_shape data ns Hns)
      as (n1 & n2 & n3 & n4 & n5 & n6 & n7 & n8 & ->).
    eexists. split; [ apply weighted_sum_unfold | ].
    unfold evaluate_neighborhood.
    rewrite Hns, bind_Ok, weighted_sum_unfold, bind_Ok. reflexivity.
  - intros e He. unfold evaluate_neighborhood. rewrite He. apply bind_Raise.
Qed.

Lemma evaluate_neighborhood_outcome_witness :
  evaluate_neighborhood [ ("population_density", 5000%Q) ] = Raise KeyError.
Proof.
  apply (proj2 (evaluate_neighborhood_outcome
                  [ ("population_density", 5000%Q) ])).
  vm_compute. reflexivity.
Defined.

(** ** Collaborator calls *)

(** X7.  [call_api] returns the JSON body exactly when the collaborator
    answers with status 200; any other status is raised as an
    [HTTPException] carrying that status, a failed connection as
    [ConnectionError], and an unanswered request blocks. *)
Theorem call_api_outcome (w : world) (req : request) :
  (forall v, call_api w req = Ok v <-> answers w req v)
  /\ (forall e,
         call_api w req = Raise e <->
         (http w req = ConnectionFailed /\ e = ConnectionError)
         \/ (exists r,
                http w req = Responded r /\ status_code r <> 200
                /\ e = HTTPException (status_code r)
                         "Internal Error (API's are dead), please try again later"))
  /\ (call_api w req = Blocked <-> http w req = NoAnswer).
Proof.
  unfold call_api, requests_get, answers.
  destruct (http w req) as [r | | ] eqn:Hr; cbn [bind].
  - destruct (status_code r =? 200) eqn:Hs; cbn [negb].
    + apply Z.eqb_eq in Hs. repeat split.
      * intros H. apply Ok_inj in H. exists r. auto.
      * intros (r' & Hr' & _ & Hb).
        assert (r' = r) by congruence. now subst.
      * discriminate.
      * intros [[H _] | (r' & Hr' & Hne & _)]; [ discriminate H | ].
        assert (r' = r) by congruence. subst. contradiction.
      * discriminate.
      * discriminate.
    + apply Z.eqb_neq in Hs. repeat split.
      * discriminate.
      * intros (r' & Hr' & Hok & _).
        assert (r' = r) by congruence. subst. contradiction.
      * intros H. right. exists r. repeat split; [ exact Hs | ].
        congruence.
      * intros [[H _] | (r' & Hr' & _ & ->)]; [ discriminate H | ].
        assert (r' = r) by congruence. now subst.
      * discriminate.
      * discriminate.
  - repeat split; try discriminate.
    + intros (r & H & _). discriminate H.
    + intros H. left. split; [ reflexivity | congruence ].
    + intros [[_ ->] | (r & H & _)]; [ reflexivity | discriminate H ].
  - repeat split; try discriminate.
    + intros (r & H & _). discriminate H.
    + intros [[H _] | (r & H & _)]; discriminate H.
Qed.

Lemma call_api_outcome_witness :
  call_api crime_down_world
    (PoliceStreetCrimes (VStr "51.5033") (VStr "-0.1276") "2025-02")
  = Raise (HTTPException 500
             "Internal Error (API's are dead), please try again later").
Proof.
  apply (proj1 (proj2 (call_api_outcome crime_down_world _))).
  right. eexists. repeat split. discriminate.
Defined.

(** ** Crime score *)

(** X8.  With coordinates present and the crime service answering a list of
    [n] incidents, the score is [min((n / 500) * 100, 100)]. *)
Theorem crime_score_value (w : world) (d : list (string * value))
    (lat lon : value) (crimes : list value) :
  dict_get d "lat" = Some lat -> dict_get d "lon" = Some lon ->
  truthy lat = true -> truthy lon = true ->
  answers w (PoliceStreetCrimes lat lon "2025-02") (VList crimes) ->
  get_crime_score w (VDict d)
  = Ok (py_min_100
          (PrimFloat.mul
             (PrimFloat.div (Z2float (Z.of_nat (List.length crimes)))
                            (Z2float 500))
             100%float)).
Proof.
  intros Hlat Hlon Tlat Tlon Hans. unfold get_crime_score.
  cbn [py_get bind]. rewrite Hlat, Hlon, Tlat, Tlon. cbn [negb orb].
  rewrite (call_api_answers w _ _ Hans). reflexivity.
Qed.

Lemma crime_score_value_witness :
  get_crime_score demo_world london = Ok (Float 10%float).
Proof.
  refine (eq_trans
            (crime_score_value demo_world
               [ ("city", VStr "London"); ("country", VStr "United Kingdom");
                 ("lat", VStr "51.5033"); ("lon", VStr "-0.1276") ]
               (VStr "51.5033") (VStr "-0.1276")
               (repeat (VDict [ ("category", VStr "burglary") ]) 50)
               eq_refl eq_refl eq_refl eq_refl _) _).
  - eexists. repeat split.
  - vm_compute. reflexivity.
Defined.

(** X9.  Whatever the collaborators do, a crime score that is returned does
    not exceed 100. *)
Theorem crime_score_capped (w : world) (address_details : value) (n : number) :
  get_crime_score w address_details = Ok n ->
  PrimFloat.ltb 100%float (to_float n) = false.
Proof.
  unfold get_crime_score. intros H.
  destruct (py_get address_details "lat" VNone) as [lat | | ];
    cbn [bind] in H; try discriminate H.
  destruct (py_get address_details "lon" VNone) as [lon | | ];
    cbn [bind] in H; try discriminate H.
  assert (H25 : PrimFloat.ltb 100%float (to_float (Int 25)) = false)
    by (vm_compute; reflexivity).
  destruct (negb (truthy lat) || negb (truthy lon)).
  { apply Ok_inj in H. now subst n. }
  destruct (call_api w (PoliceStreetCrimes lat lon "2025-02"))
    as [crimes | e | ]; cbn [bind try_except] in H; try discriminate H.
  - destruct (py_len crimes) as [total | e | ]; cbn [bind try_except] in H;
      try discriminate H.
    + apply Ok_inj in H. subst n. unfold py_min_100.
      match goal with
      | |- context [if PrimFloat.ltb 100%float ?x then _ else _] =>
          destruct (PrimFloat.ltb 100%float x) eqn:E
      end.
      * vm_compute. reflexivity.
      * exact E.
    + destruct (is_RequestException e); [ | discriminate H ].
      apply Ok_inj in H. now subst n.
  - destruct (is_RequestException e); [ | discriminate H ].
    apply Ok_inj in H. now subst n.
Qed.

Lemma crime_score_capped_witness :
  PrimFloat.ltb 100%float (to_float (Float 10%float)) = false.
Proof.
  apply (crime_score_capped demo_world london). vm_compute. reflexivity.
Defined.

(** ** Density lookups *)

Lemma int_truediv_raises (a b : Z) (e : exn) :
  int_truediv a b = Raise e -> e = ZeroDivisionError \/ e = OverflowError.
Proof.
  unfold int_truediv. destruct (b =? 0).
  - intros H. apply Raise_inj in H. subst e. tauto.
  - destruct (SFdiv prec emax (Z2SF a) (Z2SF b)); intros H;
      try discriminate H; apply Raise_inj in H; subst e; tauto.
Qed.

Lemma float_of_number_raises (n : number) (e : exn) :
  float_of_number n = Raise e -> e = OverflowError.
Proof.
  destruct n as [z | f]; cbn [float_of_number]; [ | discriminate ].
  unfold float_of_int.
  destruct (binary_normalize prec emax z 0 false); intros H;
    try discriminate H; apply Raise_inj in H; now subst e.
Qed.

Lemma float_of_number_not_blocked (n : number) :
  float_of_number n <> Blocked.
Proof.
  destruct n as [z | f]; cbn [float_of_number]; [ | discriminate ].
  unfold float_of_int.
  destruct (binary_normalize prec emax z 0 false); discriminate.
Qed.

(** What [a / b] can raise. *)
Lemma py_truediv_raises (a b : value) (e : exn) :
  py_truediv a b = Raise e ->
  e = TypeError \/ e = ZeroDivisionError \/ e = OverflowError.
Proof.
  unfold py_truediv.
  assert (Hfloat : forall x y,
             (fx <- float_of_number x ;;
              fy <- float_of_number y ;;
              if PrimFloat.eqb fy 0%float then Raise ZeroDivisionError
              else Ok (PrimFloat.div fx fy)) = Raise e ->
             e = TypeError \/ e = ZeroDivisionError \/ e = OverflowError).
  { intros x y.
    destruct (float_of_number x) as [fx | ex | ] eqn:Ex; cbn [bind];
      [ | intros H; apply Raise_inj in H; subst ex;
          rewrite (float_of_number_raises x e Ex); tauto
        | discriminate ].
    destruct (float_of_number y) as [fy | ey | ] eqn:Ey; cbn [bind];
      [ | intros H; apply Raise_inj in H; subst ey;
          rewrite (float_of_number_raises y e Ey); tauto
        | discriminate ].
    destruct (PrimFloat.eqb fy 0%float); intros H; [ | discriminate H ].
    apply Raise_inj in H. subst e. tauto. }
  destruct (as_number a) as [[x | x] | ], (as_number b) as [[y | y] | ];
    try (intros H; apply Raise_inj in H; subst e; tauto);
    try apply Hfloat.
  intros H. destruct (int_truediv_raises x y e H) as [-> | ->]; tauto.
Qed.

(** What [int(population / area)] can raise. *)
Lemma density_of_raises (population area : value) (e : exn) :
  density_of population area = Raise e ->
  e = TypeError \/ e = ZeroDivisionError \/ e = OverflowError
  \/ e = ValueError.
Proof.
  unfold density_of. intros H.
  destruct (truthy population && truthy area); [ | discriminate H ].
  destruct (py_truediv population area) as [q | eq | ] eqn:Eq;
    cbn [bind] in H; [ | | discriminate H ].
  - unfold py_int in H.
    destruct (Prim2SF q); cbn [bind] in H; try discriminate H;
      apply Raise_inj in H; subst e; tauto.
  - apply Raise_inj in H. subst eq.
    destruct (py_truediv_raises population area e Eq) as [-> | [-> | ->]];
      tauto.
Qed.

(** Two ints are divided exactly and the quotient is rounded once, also
    above 2^53; an int too large for a float raises [OverflowError] when it
    meets a float operand, before the divisor is looked at. *)
Lemma truediv_of_large_ints :
  density_of (VNum (Int 9007199254740993)) (VNum (Int 3))
  = Ok (Some 3002399751580331)
  /\ py_truediv (VNum (Int (10 ^ 400))) (VNum (Int (10 ^ 399)))
     = Ok 10%float
  /\ py_truediv (VNum (Int (10 ^ 400))) (VNum (Int 1)) = Raise OverflowError
  /\ py_truediv (VNum (Int (10 ^ 400))) (VNum (Float 0)) = Raise OverflowError
  /\ py_truediv (VNum (Float 1)) (VNum (Int 0)) = Raise ZeroDivisionError
  /\ py_truediv (VNum (Int 1)) (VNum (Int 0)) = Raise ZeroDivisionError.
Proof. repeat split; vm_compute; reflexivity. Qed.

Lemma density_of_not_request (population area : value) (e : exn) :
  density_of population area = Raise e ->
  is_RequestException e = false /\ is_KeyError e = false
  /\ is_IndexError e = false.
Proof.
  intros H.
  destruct (density_of_raises population area e H) as [-> | [-> | [-> | ->]]];
    repeat split.
Qed.


(** X10.  Without usable coordinates the urban-area lookup returns no value
    and asks no collaborator; on anything but a dict it raises
    [AttributeError]. *)
Theorem urban_area_density_without_coordinates (w : world) :
  (forall d lat lon,
      py_get (VDict d) "lat" VNone = Ok lat ->
      py_get (VDict d) "lon" VNone = Ok lon ->
      truthy lat = false \/ truthy lon = false ->
      get_urban_area_density w (VDict d) = Ok None)
  /\ (forall v, (forall d, v <> VDict d) ->
                get_urban_area_density w v = Raise AttributeError).
Proof.
  split.
  - intros d lat lon Hlat Hlon Hmissing. unfold get_urban_area_density.
    rewrite Hlat, Hlon. cbn [bind].
    destruct Hmissing as [-> | ->]; cbn [negb orb]; [ reflexivity | ].
    now rewrite orb_true_r.
  - intros v Hv. destruct v; try reflexivity. elim (Hv d). reflexivity.
Qed.

Lemma urban_area_density_without_coordinates_witness :
  get_urban_area_density crime_silent_world
    (VDict [ ("city", VStr "London"); ("lat", VStr "") ]) = Ok None.
Proof.
  apply (proj1 (urban_area_density_without_coordinates crime_silent_world)
           _ (VStr "") VNone); [ reflexivity | reflexivity | ].
  left. reflexivity.
Defined.



(** X12.  A details answer whose first category has no label is not absorbed:
    the [KeyError] leaves the urban-area lookup and the population-density
    provider. *)
Theorem urban_area_density_unlabelled_category (w : world)
    (d : list (string * value)) (lat lon : value) (href slug : string)
    (category : list (string * value)) (rest : list value) :
  dict_get d "lat" = Some lat -> dict_get d "lon" = Some lon ->
  truthy lat = true -> truthy lon = true ->
  delivers w (TeleportLocations lat lon) (teleport_location (VStr href)) ->
  href <> "" ->
  seq_index (split_on "/" href) (-2) = Ok slug ->
  delivers w (TeleportUrbanAreaDetails slug)
    (VDict [ ("categories", VList (VDict category :: rest)) ]) ->
  dict_get category "label" = None ->
  get_urban_area_density w (VDict d) = Raise KeyError
  /\ get_population_density_score w (VDict d) = Raise KeyError.
Proof.
  intros Hlat Hlon Tlat Tlon Hloc Hne Hslug Hdet Hlabel.
  assert (Hval : get_urban_area_density w (VDict d) = Raise KeyError).
  { unfold get_urban_area_density. cbn [py_get bind].
    rewrite Hlat, Hlon, Tlat, Tlon. cbn [negb orb].
    destruct (requests_get_delivers w _ _ (Some 5) Hloc)
      as (r1 & Hr1 & Hs1 & Hb1).
    destruct (requests_get_delivers w _ _ (Some 5) Hdet)
      as (r2 & Hr2 & Hs2 & Hb2).
    rewrite Hr1. cbn [bind]. rewrite Hs1, Hb1.
    cbn [bind teleport_location py_get dict_get String.eqb Ascii.eqb
           Bool.eqb truthy].
    replace (negb (negb (href =? ""))%string) with false.
    2:{ destruct (String.eqb_spec href ""); [ contradiction | reflexivity ]. }
    cbn [py_split_slash bind]. rewrite Hslug. cbn [bind].
    rewrite Hr2. cbn [bind]. rewrite Hs2, Hb2.
    cbn [bind py_get dict_get String.eqb Ascii.eqb Bool.eqb py_iter foldM
           scan_category py_getitem_str].
    unfold getitem. rewrite Hlabel. reflexivity. }
  split; [ exact Hval | ].
  unfold get_population_density_score. rewrite Hval. reflexivity.
Qed.

Lemma urban_area_density_unlabelled_category_witness :
  get_population_density_score
    {| http req :=
         match req with
         | TeleportLocations _ _ =>
             ok_response (teleport_location (VStr "/urban_areas/slug:x/"))
         | TeleportUrbanAreaDetails _ =>
             ok_response
               (VDict [ ("categories", VList [ VDict [ ("id", VStr "CITY") ] ]) ])
         | _ => ConnectionFailed
         end;
       search_fuzzy _ := Raise LookupError |}
    somewhere
  = Raise KeyError.
Proof.
  refine (proj2 (urban_area_density_unlabelled_category _
                   [ ("country", VStr "United Kingdom");
                     ("lat", VStr "51.5033"); ("lon", VStr "-0.1276") ]
                   (VStr "51.5033") (VStr "-0.1276")
                   "/urban_areas/slug:x/" "slug:x"
                   [ ("id", VStr "CITY") ] []
                   eq_refl eq_refl eq_refl eq_refl _ _ _ _ eq_refl)).
  - eexists. repeat split.
  - discriminate.
  - vm_compute. reflexivity.
  - eexists. repeat split.
Defined.

(** X13.  The country-level lookup returns no value, without asking the World
    Bank, when the details carry no country name, when the resolver raises a
    [LookupError] (or a [KeyError] or [IndexError], its subclasses), and when
    the resolver finds no match. *)
Theorem country_density_unresolved (w : world) (d : list (string * value))
    (country_name : value) :
  py_get (VDict d) "country" (VStr "") = Ok country_name ->
  (truthy country_name = false -> get_country_density w (VDict d) = Ok None)
  /\ (forall e,
         search_fuzzy w country_name = Raise e -> is_LookupError e = true ->
         get_country_density w (VDict d) = Ok None)
  /\ (search_fuzzy w country_name = Ok [] ->
      get_country_density w (VDict d) = Ok None).
Proof.
  intros Hname. unfold get_country_density. rewrite Hname. cbn [bind].
  repeat split.
  - intros ->. reflexivity.
  - intros e He Hlookup. destruct (negb (truthy country_name));
      [ reflexivity | ].
    rewrite He. cbn [bind try_except]. rewrite Hlookup. reflexivity.
  - intros He. destruct (negb (truthy country_name)); [ reflexivity | ].
    rewrite He. reflexivity.
Qed.

Lemma country_density_unresolved_witness :
  get_country_density demo_world london = Ok None.
Proof.
  apply (proj1 (proj2 (country_density_unresolved demo_world
                         [ ("city", VStr "London");
                           ("country", VStr "United Kingdom");
                           ("lat", VStr "51.5033"); ("lon", VStr "-0.1276") ]
                         (VStr "United Kingdom") eq_refl))
           LookupError); reflexivity.
Defined.

(** X14.  When the World Bank answers both indicators with a record list
    whose first record carries a value, the country density is what
    [if population and area: return int(population / area)] gives on the two
    values. *)
Theorem country_density_value (w : world) (d : list (string * value))
    (country_name : value) (code : string) (rest : list string)
    (meta1 meta2 : value) (record1 record2 : list (string * value))
    (more1 more2 : list value) (population area : value) :
  dict_get d "country" = Some country_name ->
  truthy country_name = true ->
  search_fuzzy w country_name = Ok (code :: rest) ->
  delivers w (WorldBankPopulation code)
    (world_bank_answer meta1 (VList (VDict record1 :: more1))) ->
  delivers w (WorldBankLandArea code)
    (world_bank_answer meta2 (VList (VDict record2 :: more2))) ->
  dict_get record1 "value" = Some population ->
  dict_get record2 "value" = Some area ->
  get_country_density w (VDict d) = density_of population area.
Proof.
  intros Hname Tname Hcode Hpop Harea Hp Ha.
  unfold get_country_density. cbn [py_get bind]. rewrite Hname, Tname.
  cbn [negb]. rewrite (resolve_country w country_name code rest Hcode).
  cbn [bind].
  destruct (requests_get_delivers w _ _ (Some 5) Hpop)
    as (r1 & Hr1 & Hs1 & Hb1).
  destruct (requests_get_delivers w _ _ (Some 5) Harea)
    as (r2 & Hr2 & Hs2 & Hb2).
  rewrite Hr1. cbn [bind]. rewrite Hs1, Hb1. cbn [bind].
  unfold world_bank_value at 1.
  cbn [world_bank_answer py_len List.length Z.of_nat Pos.of_succ_nat
         Pos.succ bind Z.ltb Z.compare Pos.compare Pos.compare_cont
         py_getitem_int].
  change (seq_index [meta1; VList (VDict record1 :: more1)] 1)
    with (Ok (VList (VDict record1 :: more1))).
  cbn [bind py_getitem_int]. rewrite seq_index_head. cbn [bind py_getitem_str].
  unfold getitem at 1. rewrite Hp. cbn [bind].
  rewrite Hr2. cbn [bind]. rewrite Hs2, Hb2. cbn [bind].
  unfold world_bank_value.
  cbn [world_bank_answer py_len List.length Z.of_nat Pos.of_succ_nat
         Pos.succ bind Z.ltb Z.compare Pos.compare Pos.compare_cont
         py_getitem_int].
  change (seq_index [meta2; VList (VDict record2 :: more2)] 1)
    with (Ok (VList (VDict record2 :: more2))).
  cbn [bind py_getitem_int]. rewrite seq_index_head. cbn [bind py_getitem_str].
  unfold getitem. rewrite Ha. cbn [bind].
  destruct (density_of population area) as [r | e | ] eqn:E;
    cbn [try_except]; try reflexivity.
  destruct (density_of_not_request population area e E) as (-> & -> & ->).
  reflexivity.
Qed.

Lemma country_density_value_witness :
  get_country_density (world_bank_world uk_population_answer uk_area_answer)
    somewhere
  = Ok (Some 277).
Proof.
  refine (eq_trans
            (country_density_value
               (world_bank_world uk_population_answer uk_area_answer)
               [ ("country", VStr "United Kingdom");
                 ("lat", VStr "51.5033"); ("lon", VStr "-0.1276") ]
               (VStr "United Kingdom") "GBR" [] VNone VNone
               [ ("date", VStr "2021"); ("value", VNum (Int 67026292)) ]
               [ ("date", VStr "2021"); ("value", VNum (Float 241930)) ]
               [] [] (VNum (Int 67026292)) (VNum (Float 241930))
               eq_refl eq_refl eq_refl _ _ eq_refl eq_refl) _).
  - eexists. repeat split.
  - eexists. repeat split.
  - vm_compute. reflexivity.
Defined.

(** X15.  When the World Bank has no data for the country it answers
    [[metadata, null]]; indexing the null raises [TypeError], which the
    handler of the country-level lookup does not catch, so it leaves the
    population-density provider whenever the urban-area lookup gave no
    value. *)
Theorem country_density_null_records (w : world) (d : list (string * value))
    (country_name : value) (code : string) (rest : list string)
    (meta : value) :
  dict_get d "country" = Some country_name ->
  truthy country_name = true ->
  search_fuzzy w country_name = Ok (code :: rest) ->
  delivers w (WorldBankPopulation code) (world_bank_answer meta VNone) ->
  get_country_density w (VDict d) = Raise TypeError
  /\ (get_urban_area_density w (VDict d) = Ok None ->
      get_population_density_score w (VDict d) = Raise TypeError).
Proof.
  intros Hname Tname Hcode Hpop.
  assert (Hval : get_country_density w (VDict d) = Raise TypeError).
  { unfold get_country_density. cbn [py_get bind]. rewrite Hname, Tname.
    cbn [negb]. rewrite (resolve_country w country_name code rest Hcode).
    cbn [bind].
    destruct (requests_get_delivers w _ _ (Some 5) Hpop)
      as (r1 & Hr1 & Hs1 & Hb1).
    rewrite Hr1. cbn [bind]. rewrite Hs1, Hb1. reflexivity. }
  split; [ exact Hval | ].
  intros Hu. unfold get_population_density_score.
  rewrite Hu. cbn [bind]. rewrite Hval. reflexivity.
Qed.

Lemma country_density_null_records_witness :
  get_population_density_score
    (world_bank_world (world_bank_answer VNone VNone)
                      (world_bank_answer VNone VNone))
    somewhere
  = Raise TypeError.
Proof.
  refine (proj2 (country_density_null_records
                   (world_bank_world (world_bank_answer VNone VNone)
                                     (world_bank_answer VNone VNone))
                   [ ("country", VStr "United Kingdom");
                     ("lat", VStr "51.5033"); ("lon", VStr "-0.1276") ]
                   (VStr "United Kingdom") "GBR" [] VNone
                   eq_refl eq_refl eq_refl _) _).
  - eexists. repeat split.
  - vm_compute. reflexivity.
Defined.

(** X16.  The population-density provider is an ordered chain: what it
    returns is the urban-area density if there is one, else the country
    density if there is one, else 5000; and it raises only what one of the
    two lookups raises. *)
Theorem population_density_chain (w : world) (address_details : value) :
  (forall z,
      get_population_density_score w address_details = Ok z <->
      get_urban_area_density w address_details = Ok (Some z)
      \/ (get_urban_area_density w address_details = Ok None
          /\ (get_country_density w address_details = Ok (Some z)
              \/ (get_country_density w address_details = Ok None
                  /\ z = 5000))))
  /\ (forall e,
         get_population_density_score w address_details = Raise e ->
         get_urban_area_density w address_details = Raise e
         \/ get_country_density w address_details = Raise e).
Proof.
  unfold get_population_density_score.
  destruct (get_urban_area_density w address_details) as [[u | ] | eu | ];
    cbn [bind].
  - split.
    + intros z. split.
      * intros H. apply Ok_inj in H. subst. now left.
      * intros [H | [H _]]; [ | discriminate H ].
        apply Ok_inj in H. congruence.
    + discriminate.
  - destruct (get_country_density w address_details) as [[c | ] | ec | ];
      cbn [bind].
    + split; [ | discriminate ].
      intros z. split.
      * intros H. apply Ok_inj in H. subst. right. split; auto.
      * intros [H | [_ [H | [H _]]]]; try discriminate H.
        apply Ok_inj in H. congruence.
    + split; [ | discriminate ].
      intros z. split.
      * intros H. apply Ok_inj in H. subst. right. split; auto.
      * intros [H | [_ [H | [_ ->]]]]; try discriminate H. reflexivity.
    + split.
      * intros z. split; [ discriminate | ].
        intros [H | [_ [H | [H _]]]]; discriminate H.
      * intros e H. apply Raise_inj in H. subst. now right.
    + split.
      * intros z. split; [ discriminate | ].
        intros [H | [_ [H | [H _]]]]; discriminate H.
      * discriminate.
  - split.
    + intros z. split; [ discriminate | ].
      intros [H | [H _]]; discriminate H.
    + intros e H. apply Raise_inj in H. subst. now left.
  - split.
    + intros z. split; [ discriminate | ].
      intros [H | [H _]]; discriminate H.
    + discriminate.
Qed.

Lemma population_density_chain_witness :
  get_population_density_score demo_world london = Ok 5661.
Proof.
  apply (proj1 (population_density_chain demo_world london)).
  left. vm_compute. reflexivity.
Defined.

(** ** Income *)

Lemma normalize_income (x : float) :
  normalize x (lit 20000) (lit 150000) false
  = Ok (PrimFloat.div (PrimFloat.sub x 20000%float) 130000%float).
Proof. vm_compute. reflexivity. Qed.

Lemma bind_ret {A : Type} (m : exc A) : (x <- m ;; Ok x) = m.
Proof. destruct m; reflexivity. Qed.

(** X17.  [get_income_score] raises [ValueError] when the answer has no
    income field or a null one; for an int income it returns the exact
    quotient [(income - 20000) / 130000] rounded once to a float (or raises
    [OverflowError] when that is too large for a float), for a float income
    the binary64 quotient of [income - 20000.0] by [130000.0]; it raises
    [TypeError] for a string income and passes on the [HTTPException] of an
    error status. *)
Theorem income_score_outcomes (w : world) (postcode api_key : string) :
  (forall body,
      answers w (CrystalRoofIncome (upper (remove_spaces postcode)) api_key)
        (VDict body) ->
      dict_get body "mean_household_income" = None
      \/ dict_get body "mean_household_income" = Some VNone ->
      get_income_score w postcode api_key = Raise ValueError)
  /\ (forall body income,
         answers w (CrystalRoofIncome (upper (remove_spaces postcode)) api_key)
           (VDict body) ->
         dict_get body "mean_household_income" = Some (VNum (Int income)) ->
         get_income_score w postcode api_key
         = int_truediv (income - 20000) 130000)
  /\ (forall body income,
         answers w (CrystalRoofIncome (upper (remove_spaces postcode)) api_key)
           (VDict body) ->
         dict_get body "mean_household_income" = Some (VNum (Float income)) ->
         get_income_score w postcode api_key
         = Ok (PrimFloat.div (PrimFloat.sub income 20000%float)
                             130000%float))
  /\ (forall body income,
         answers w (CrystalRoofIncome (upper (remove_spaces postcode)) api_key)
           (VDict body) ->
         dict_get body "mean_household_income" = Some (VStr income) ->
         get_income_score w postcode api_key = Raise TypeError)
  /\ (forall r,
         http w (CrystalRoofIncome (upper (remove_spaces postcode)) api_key)
         = Responded r ->
         status_code r <> 200 ->
         get_income_score w postcode api_key
         = Raise (HTTPException (status_code r)
                    "Internal Error (API's are dead), please try again later")).
Proof.
  split; [ | split; [ | split; [ | split ] ] ].
  - intros body Hans Hmissing. unfold get_income_score.
    rewrite (call_api_answers w _ _ Hans). cbn [bind py_get].
    destruct Hmissing as [-> | ->]; reflexivity.
  - intros body income Hans Hincome. unfold get_income_score.
    rewrite (call_api_answers w _ _ Hans). cbn [bind py_get].
    rewrite Hincome. cbn [as_number]. unfold normalize_int.
    change (150000 - 20000) with 130000. apply bind_ret.
  - intros body income Hans Hincome. unfold get_income_score.
    rewrite (call_api_answers w _ _ Hans). cbn [bind py_get].
    rewrite Hincome. cbn [as_number]. apply normalize_income.
  - intros body income Hans Hincome. unfold get_income_score.
    rewrite (call_api_answers w _ _ Hans). cbn [bind py_get].
    rewrite Hincome. reflexivity.
  - intros r Hr Hs. unfold get_income_score.
    rewrite (call_api_error_status w _ r Hr Hs). reflexivity.
Qed.

Lemma income_score_outcomes_witness :
  get_income_score
    {| http _ :=
         ok_response
           (VDict [ ("mean_household_income",
                     VNum (Int 9007199254740995)) ]);
       search_fuzzy _ := Raise LookupError |}
    "mk9 3hg" "DEMO"
  = Ok 69286148113.23842%float.
Proof.
  refine (eq_trans
            (proj1 (proj2 (income_score_outcomes _ "mk9 3hg" "DEMO"))
               [ ("mean_household_income", VNum (Int 9007199254740995)) ]
               9007199254740995 _ _) _).
  - eexists. repeat split.
  - reflexivity.
  - vm_compute. reflexivity.
Defined.

Lemma list_ascii_of_string_app (a b : string) :
  list_ascii_of_string (a ++ b)
  = (list_ascii_of_string a ++ list_ascii_of_string b)%list.
Proof. induction a as [ | c a IH ]; cbn; [ reflexivity | now rewrite IH ]. Qed.

Lemma list_ascii_of_string_lower (s : string) :
  list_ascii_of_string (lower s) = map lower_ascii (list_ascii_of_string s).
Proof. induction s as [ | c s IH ]; cbn; [ reflexivity | now rewrite IH ]. Qed.

Lemma upper_lower_ascii (c : ascii) :
  upper_ascii (lower_ascii c) = upper_ascii c
  /\ Ascii.eqb (lower_ascii c) " "%char = Ascii.eqb c " "%char.
Proof.
  destruct c as [[] [] [] [] [] [] [] []]; split; vm_compute; reflexivity.
Qed.

Lemma postcode_clean_spaces (a b : string) :
  upper (remove_spaces (a ++ " " ++ b)) = upper (remove_spaces (a ++ b)).
Proof.
  unfold upper, remove_spaces. do 2 f_equal. f_equal.
  rewrite !list_ascii_of_string_app, !filter_app. reflexivity.
Qed.

Lemma postcode_clean_case (p : string) :
  upper (remove_spaces (lower p)) = upper (remove_spaces p).
Proof.
  unfold upper, remove_spaces. f_equal.
  rewrite !list_ascii_of_string_of_list_ascii, list_ascii_of_string_lower.
  induction (list_ascii_of_string p) as [ | c l IH ]; [ reflexivity | ].
  cbn [map filter].
  destruct (upper_lower_ascii c) as [Hu ->].
  destruct (Ascii.eqb c " "%char); cbn [negb map]; [ exact IH | ].
  now rewrite Hu, IH.
Qed.

(** X18.  The income lookup does not depend on the spaces in the postcode nor
    on the case of its letters. *)
Theorem income_score_postcode_spelling (w : world) (api_key : string) :
  (forall a b,
      get_income_score w (a ++ " " ++ b) api_key
      = get_income_score w (a ++ b) api_key)
  /\ (forall p,
         get_income_score w (lower p) api_key = get_income_score w p api_key).
Proof.
  split.
  - intros a b. unfold get_income_score.
    now rewrite postcode_clean_spaces.
  - intros p. unfold get_income_score. now rewrite postcode_clean_case.
Qed.

(** ** Residential ratio *)

Lemma get_residential_ratio_tags (w : world) (address body : list (string * value))
    (radius : Z) (elements : list value) :
  answers w
    (OverpassBuildings radius
       (match dict_get address "lat" with Some x => x | None => VNone end)
       (match dict_get address "lon" with Some x => x | None => VNone end))
    (VDict body) ->
  py_get (VDict body) "elements" (VList []) = Ok (VList elements) ->
  get_residential_ratio w (VDict address) radius
  = (building_tags <- mapM building_tag elements ;;
     match building_tags with
     | [] => Ok 0%float
     | _ =>
         Ok (PrimFloat.div
               (Z2float
                  (Z.of_nat (List.length (filter is_residential building_tags))))
               (Z2float (Z.of_nat (List.length building_tags))))
     end).
Proof.
  intros Hans Hel. unfold get_residential_ratio.
  change (py_get (VDict address) "lat" VNone)
    with (Ok (match dict_get address "lat" with
              | Some x => x | None => VNone end)).
  change (py_get (VDict address) "lon" VNone)
    with (Ok (match dict_get address "lon" with
              | Some x => x | None => VNone end)).
  cbn [bind]. rewrite (call_api_answers w _ _ Hans). cbn [bind].
  rewrite Hel. cbn [bind py_iter].
  destruct (mapM building_tag elements) as [tags | e | ]; cbn [bind];
    try reflexivity.
  destruct tags as [ | t tags ]; [ reflexivity | ].
  replace (0 <? Z.of_nat (Datatypes.length (t :: tags))) with true
    by (symmetry; apply Z.ltb_lt; cbn [List.length]; lia).
  reflexivity.
Qed.

(** X19.  A returned element without a building tag counts among the
    buildings and never as residential; an element whose building tag is not
    a string makes the provider raise [AttributeError]. *)
Theorem residential_ratio_untagged (w : world)
    (address body : list (string * value)) (radius : Z)
    (el : list (string * value)) (els : list value) :
  answers w
    (OverpassBuildings radius
       (match dict_get address "lat" with Some x => x | None => VNone end)
       (match dict_get address "lon" with Some x => x | None => VNone end))
    (VDict body) ->
  py_get (VDict body) "elements" (VList []) = Ok (VList (VDict el :: els)) ->
  (dict_get el "tags" = None ->
   forall tags,
     mapM building_tag els = Ok tags ->
     get_residential_ratio w (VDict address) radius
     = Ok (PrimFloat.div
             (Z2float (Z.of_nat (List.length (filter is_residential tags))))
             (Z2float (Z.of_nat (S (List.length tags))))))
  /\ (forall tags n,
         dict_get el "tags" = Some (VDict tags) ->
         dict_get tags "building" = Some (VNum n) ->
         get_residential_ratio w (VDict address) radius
         = Raise AttributeError).
Proof.
  intros Hans Hel.
  rewrite (get_residential_ratio_tags w address body radius _ Hans Hel).
  split.
  - intros Hno tags Htags. cbn [mapM]. unfold building_tag at 1.
    cbn [py_get bind]. rewrite Hno. cbn [py_get dict_get bind py_lower lower].
    rewrite Htags. reflexivity.
  - intros tags n Htags Hb. cbn [mapM]. unfold building_tag at 1.
    cbn [py_get bind]. rewrite Htags. cbn [py_get bind]. rewrite Hb.
    reflexivity.
Qed.

Lemma residential_ratio_untagged_witness :
  get_residential_ratio
    {| http _ :=
         ok_response
           (VDict [ ("elements",
                     VList [ VDict [ ("type", VStr "way") ];
                             building "house" ]) ]);
       search_fuzzy _ := Raise LookupError |}
    london 200
  = Ok 0.5%float.
Proof.
  refine (eq_trans
            (proj1 (residential_ratio_untagged _
                      [ ("city", VStr "London");
                        ("country", VStr "United Kingdom");
                        ("lat", VStr "51.5033"); ("lon", VStr "-0.1276") ]
                      [ ("elements",
                         VList [ VDict [ ("type", VStr "way") ];
                                 building "house" ]) ]
                      200 [ ("type", VStr "way") ] [ building "house" ] _ _)
               eq_refl [ "house" ] _) _).
  - eexists. repeat split.
  - reflexivity.
  - vm_compute. reflexivity.
  - vm_compute. reflexivity.
Defined.

(** ** Address validation *)

(** X20.  The details of a validated address are the administrative fields
    of the geocoding candidate, with [lat] and [lon] set to the candidate's
    coordinates: every other field is as the geocoder gave it. *)
Theorem validated_details_fields (w : world) (address : string)
    (result : value) (rest : list value) (place_type : string)
    (lat lon : value) (fields : list (string * value)) :
  answers w (NominatimSearch address) (VList (result :: rest)) ->
  candidate result place_type lat lon fields ->
  In place_type accepted_place_types ->
  exists details,
    get_valid_address_details w address = Ok (VDict details)
    /\ (forall k, k <> "lat" -> k <> "lon" ->
                  dict_get details k = dict_get fields k)
    /\ dict_get details "lat" = Some lat
    /\ dict_get details "lon" = Some lon.
Proof.
  intros Hans Hcand Hin.
  rewrite (get_valid_address_details_candidate
             w address result rest place_type lat lon fields Hans Hcand).
  apply existsb_eqb_In in Hin. rewrite Hin.
  eexists. split; [ reflexivity | ]. repeat split.
  - intros k Hlat Hlon.
    rewrite !dict_get_set_other by congruence. reflexivity.
  - rewrite dict_get_set_other by discriminate. apply dict_get_set_same.
  - apply dict_get_set_same.
Qed.

Lemma validated_details_fields_witness :
  exists details,
    get_valid_address_details demo_world "SW1A 2AA" = Ok (VDict details)
    /\ (forall k, k <> "lat" -> k <> "lon" ->
                  dict_get details k
                  = dict_get [ ("city", VStr "London");
                               ("country", VStr "United Kingdom") ] k)
    /\ dict_get details "lat" = Some (VStr "51.5033")
    /\ dict_get details "lon" = Some (VStr "-0.1276").
Proof.
  apply (validated_details_fields demo_world "SW1A 2AA"
           (geocoded_candidate "residential") [] "residential").
  - exists {| status_code := 200; json := geocoded "residential" |}.
    repeat split.
  - eexists. repeat split.
  - cbn. tauto.
Defined.

(** X21.  A failure of the geocoder is not a rejection: an error status is
    raised as [HTTPException], a failed connection as [ConnectionError], and a
    first candidate without an [address] field as [KeyError]. *)
Theorem validator_raises (w : world) (address : string) :
  (forall r,
      http w (NominatimSearch address) = Responded r ->
      status_code r <> 200 ->
      get_valid_address_details w address
      = Raise (HTTPException (status_code r)
                 "Internal Error (API's are dead), please try again later"))
  /\ (http w (NominatimSearch address) = ConnectionFailed ->
      get_valid_address_details w address = Raise ConnectionError)
  /\ (forall d rest,
         answers w (NominatimSearch address) (VList (VDict d :: rest)) ->
         dict_get d "address" = None ->
         get_valid_address_details w address = Raise KeyError).
Proof.
  unfold get_valid_address_details, get_address_details.
  split; [ | split ].
  - intros r Hr Hs. rewrite (call_api_error_status w _ r Hr Hs). reflexivity.
  - intros Hc. unfold call_api, requests_get. rewrite Hc. reflexivity.
  - intros d rest Hans Hnone. rewrite (call_api_answers w _ _ Hans).
    cbn [bind truthy negb py_getitem_int]. rewrite seq_index_head.
    cbn [bind py_getitem_str]. unfold getitem. rewrite Hnone. reflexivity.
Qed.

Lemma validator_raises_witness :
  get_valid_address_details
    {| http _ := ConnectionFailed; search_fuzzy _ := Raise LookupError |}
    "10 Downing Street"
  = Raise ConnectionError.
Proof.
  apply (proj1 (proj2 (validator_raises _ "10 Downing Street"))).
  reflexivity.
Defined.

(** ** Request paths *)

(** X22.  Fetched data can always be scored: the record of
    [get_neighbourhood_data] has the eight keys, its income, noise,
    healthcare, community and environment entries are the fixed
    placeholders 60000, 30, 85, 70 and 75, and [evaluate_neighborhood]
    returns on it. *)
Theorem fetched_record_scores (w : world) (address_details : value)
    (record : list (string * float)) :
  get_neighbourhood_data w address_details = Ok record ->
  keys record = Spec.metric_keys
  /\ dict_get record "income" = Some 60000%float
  /\ dict_get record "noise_level" = Some 30%float
  /\ dict_get record "healthcare_access" = Some 85%float
  /\ dict_get record "community_engagement" = Some 70%float
  /\ dict_get record "environmental_quality" = Some 75%float
  /\ exists r, evaluate_neighborhood record = Ok r.
Proof.
  intros H.
  pose proof (get_neighbourhood_data_keys w address_details record H) as Hk.
  unfold get_neighbourhood_data in H. bind_inv H.
  apply Ok_inj in H. subst record.
  repeat split.
  rewrite (evaluate_neighborhood_value _ Hk). eexists. reflexivity.
Qed.

Lemma fetched_record_scores_witness :
  exists r,
    evaluate_neighborhood
      [ ("population_density", 5661%float); ("crime_rate", 10%float);
        ("income", 60000%float);
        ("residential_ratio", 0.59999999999999998%float);
        ("noise_level", 30%float); ("healthcare_access", 85%float);
        ("community_engagement", 70%float);
        ("environmental_quality", 75%float) ] = Ok r.
Proof.
  apply (fetched_record_scores demo_world london).
  vm_compute. reflexivity.
Defined.

(** X23.  The single-address path returns the rejection message of an
    invalid address as its response, whatever the metric collaborators do;
    for a valid address it returns the evaluation that a batch of that one
    address returns. *)
Theorem single_address_outcomes (w : world) (requested_address : string) :
  (forall message,
      get_valid_address_details w requested_address = Ok (VStr message) ->
      get_single_address_probability w requested_address = Ok (inl message))
  /\ (forall d,
         get_valid_address_details w requested_address = Ok (VDict d) ->
         forall r,
           get_single_address_probability w requested_address = Ok (inr r)
           <-> get_many_addresses_probability w [ requested_address ]
               = Ok [ {| address := requested_address; evaluation := r |} ]).
Proof.
  unfold get_single_address_probability, get_many_addresses_probability,
    get_algorithm_results.
  split.
  - intros message ->. reflexivity.
  - intros d Hv r. cbn [mapM]. rewrite !Hv.
    cbn [mapM bind details name data]. cbv beta iota.
    destruct (get_address_data w (VDict d)) as [record | e | ];
      cbn [bind mapM data name];
      [ | split; intros H; discriminate H | split; intros H; discriminate H ].
    destruct (evaluate_neighborhood record) as [x | e | ]; cbn [bind];
      [ | split; intros H; discriminate H | split; intros H; discriminate H ].
    split; intros H; apply Ok_inj in H.
    + assert (x = r)
        by exact (f_equal (fun s => match s with inr y => y | inl _ => x end)
                          H).
      now subst.
    + assert (x = r)
        by exact (f_equal (fun l => match l with
                                    | e :: _ => evaluation e
                                    | [] => x
                                    end) H).
      now subst.
Qed.

Lemma single_address_outcomes_witness :
  get_single_address_probability crime_down_world "France"
  = Ok (inl "The address: France is invalid, please enter a residential address").
Proof.
  apply (proj1 (single_address_outcomes crime_down_world "France")).
  vm_compute. reflexivity.
Defined.

Lemma mapM_raise_after {A B : Type} (f : A -> exc B) (pre post : list A)
    (a : A) (e : exn) :
  Forall (fun x => exists y, f x = Ok y) pre ->
  f a = Raise e ->
  mapM f (pre ++ a :: post) = Raise e.
Proof.
  intros Hpre Ha. induction Hpre as [ | x pre [y Hy] _ IH ]; cbn [app mapM].
  - rewrite Ha. reflexivity.
  - rewrite Hy. cbn [bind]. rewrite IH. reflexivity.
Qed.

(** X24.  The batch path validates every address before it fetches any
    metric: the exception of the first address whose validation raises is
    the outcome of the batch, whatever the metric collaborators would do.
    An empty batch returns the empty list. *)
Theorem batch_validates_first (w : world) :
  get_many_addresses_probability w [] = Ok []
  /\ (forall pre post a e,
         Forall (fun x => exists v, get_valid_address_details w x = Ok v)
                pre ->
         get_valid_address_details w a = Raise e ->
         get_many_addresses_probability w (pre ++ a :: post) = Raise e).
Proof.
  split; [ reflexivity | ].
  intros pre post a e Hpre Ha. unfold get_many_addresses_probability.
  rewrite (mapM_raise_after _ pre post a e); [ reflexivity | | ].
  - eapply Forall_impl; [ | exact Hpre ].
    intros x [v ->]. cbn [bind]. eexists. reflexivity.
  - rewrite Ha. reflexivity.
Qed.

Lemma batch_validates_first_witness :
  get_many_addresses_probability
    {| http req :=
         match req with
         | NominatimSearch q =>
             if String.eqb q "Erewhon"
             then Responded {| status_code := 503; json := VNone |}
             else http demo_world req
         | _ => http demo_world req
         end;
       search_fuzzy := search_fuzzy demo_world |}
    ([ "10 Downing Street"; "Atlantis" ] ++ "Erewhon" :: [ "France" ])
  = Raise (HTTPException 503
             "Internal Error (API's are dead), please try again later").
Proof.
  apply (proj2 (batch_validates_first _)).
  - repeat constructor; eexists; vm_compute; reflexivity.
  - vm_compute. reflexivity.
Defined.

Lemma Forall2_compose {A B C : Type} (R : A -> B -> Prop) (S : B -> C -> Prop)
    (l1 : list A) (l2 : list B) (l3 : list C) :
  Forall2 R l1 l2 -> Forall2 S l2 l3 ->
  Forall2 (fun x z => exists y, R x y /\ S y z) l1 l3.
Proof.
  intros H12. revert l3.
  induction H12 as [ | x y l1 l2 Hxy _ IH ]; intros l3 H23;
    inversion H23; subst; constructor; eauto.
Qed.

(** X25.  When the batch path returns, every entry carries the evaluation
    that the single-address path returns for that address. *)
Theorem batch_agrees_with_single (w : world) (requested : list string)
    (results : list batch_entry) :
  get_many_addresses_probability w requested = Ok results ->
  Forall2 (fun a r =>
             address r = a
             /\ get_single_address_probability w a = Ok (inr (evaluation r)))
          requested results.
Proof.
  unfold get_many_addresses_probability, get_algorithm_results.
  intros H. bind_inv H.
  match goal with
  | E1 : mapM _ requested = Ok ?v, E2 : mapM _ ?v = Ok ?f |- _ =>
      apply mapM_Ok in E1, E2;
      pose proof (Forall2_compose _ _ _ _ _
                    (Forall2_compose _ _ _ _ _ E1 E2)
                    (mapM_Ok _ _ _ H)) as Hall
  end.
  eapply Forall2_impl; [ | exact Hall ].
  intros ra r (e2 & (e1 & H1 & H2) & H3). cbn beta in H1, H2, H3.
  destruct (get_valid_address_details w ra) as [dv | | ] eqn:Hv;
    cbn [bind] in H1; try discriminate H1.
  apply Ok_inj in H1. subst e1. cbn [details name] in H2.
  destruct (get_address_data w dv) as [record | | ] eqn:Hd;
    cbn [bind] in H2; try discriminate H2.
  apply Ok_inj in H2. subst e2. cbn [data name] in H3.
  destruct (evaluate_neighborhood record) as [x | | ] eqn:He;
    cbn [bind] in H3; try discriminate H3.
  apply Ok_inj in H3. subst r. cbn [address evaluation].
  split; [ reflexivity | ].
  unfold get_single_address_probability. rewrite Hv. cbn [bind].
  destruct (get_valid_address_details_cases w ra dv Hv)
    as [[d ->] | [message ->]].
  - rewrite Hd. cbn [bind]. rewrite He. reflexivity.
  - rewrite get_address_data_message in Hd. discriminate Hd.
Qed.

Lemma batch_agrees_with_single_witness :
  exists results,
    get_many_addresses_probability demo_world [ "10 Downing Street" ]
    = Ok results
    /\ Forall2 (fun a r =>
                  address r = a
                  /\ get_single_address_probability demo_world a
                     = Ok (inr (evaluation r)))
               [ "10 Downing Street" ] results.
Proof.
  eexists. split; [ vm_compute; reflexivity | ].
  apply batch_agrees_with_single. vm_compute. reflexivity.
Defined.

(** ** The urban-area identifier *)

Lemma split_on_nonempty (c : ascii) (s : string) : split_on c s <> [].
Proof.
  induction s as [ | a s IH ]; cbn [split_on]; [ discriminate | ].
  destruct (Ascii.eqb a c); [ discriminate | ].
  destruct (split_on c s); [ contradiction | discriminate ].
Qed.

Lemma split_on_join (c : ascii) (s1 s2 : string) :
  split_on c (s1 ++ String c s2) = (split_on c s1 ++ split_on c s2)%list.
Proof.
  induction s1 as [ | a s1 IH ]; cbn [append split_on].
  - now rewrite Ascii.eqb_refl.
  - rewrite IH. destruct (Ascii.eqb a c); [ reflexivity | ].
    pose proof (split_on_nonempty c s1) as Hne.
    destruct (split_on c s1); [ contradiction | reflexivity ].
Qed.

Lemma split_on_absent (s : string) :
  contains "/" s = false -> split_on "/"%char s = [ s ].
Proof.
  induction s as [ | a s IH ]; [ reflexivity | ].
  cbn [contains String.prefix split_on]. intros H.
  apply orb_false_iff in H. destruct H as [Hp Hc].
  destruct (Ascii.eqb_spec a "/"%char) as [-> | Hne].
  - destruct (ascii_dec "/" "/") as [ _ | N ]; [ | now elim N ].
    destruct s; discriminate Hp.
  - now rewrite (IH Hc).
Qed.

Lemma seq_index_penultimate {A : Type} (l : list A) (x y : A) :
  seq_index (l ++ [ x; y ]) (-2) = Ok x.
Proof.
  unfold seq_index. rewrite length_app. cbn [List.length].
  replace (-2 <? 0) with true by reflexivity.
  replace (-2 + Z.of_nat (Datatypes.length l + 2))
    with (Z.of_nat (Datatypes.length l)) by lia.
  replace (Z.of_nat (Datatypes.length l) <? 0) with false
    by (symmetry; apply Z.ltb_ge; lia).
  replace (Z.of_nat (Datatypes.length l + 2) <=? Z.of_nat (Datatypes.length l))
    with false by (symmetry; apply Z.leb_gt; lia).
  cbn [orb]. rewrite Nat2Z.id, nth_error_app2 by lia.
  now rewrite Nat.sub_diag.
Qed.

(** X26.  The urban-area identifier is the last path segment of a link that
    ends in a slash; a link without any slash has no such segment, and the
    [IndexError] of the lookup leaves the urban-area lookup uncaught. *)
Theorem urban_area_slug (base slug : string) :
  contains "/" slug = false ->
  seq_index (split_on "/" (base ++ "/" ++ slug ++ "/")) (-2) = Ok slug
  /\ (forall w d lat lon,
         dict_get d "lat" = Some lat -> dict_get d "lon" = Some lon ->
         truthy lat = true -> truthy lon = true ->
         slug <> "" ->
         delivers w (TeleportLocations lat lon)
           (teleport_location (VStr slug)) ->
         get_urban_area_density w (VDict d) = Raise IndexError).
Proof.
  intros Hslug. split.
  - change (base ++ "/" ++ slug ++ "/")%string
      with (base ++ String "/" (slug ++ String "/" ""))%string.
    rewrite split_on_join, split_on_join, (split_on_absent slug Hslug).
    apply seq_index_penultimate.
  - intros w d lat lon Hlat Hlon Tlat Tlon Hne Hloc.
    unfold get_urban_area_density. cbn [py_get bind].
    rewrite Hlat, Hlon, Tlat, Tlon. cbn [negb orb].
    destruct (requests_get_delivers w _ _ (Some 5) Hloc)
      as (r1 & Hr1 & Hs1 & Hb1).
    rewrite Hr1. cbn [bind]. rewrite Hs1, Hb1.
    cbn [bind teleport_location py_get dict_get String.eqb Ascii.eqb
           Bool.eqb truthy].
    replace (negb (negb (slug =? ""))%string) with false.
    2:{ destruct (String.eqb_spec slug ""); [ contradiction | reflexivity ]. }
    cbn [py_split_slash bind]. rewrite (split_on_absent slug Hslug).
    reflexivity.
Qed.

Lemma urban_area_slug_witness :
  seq_index
    (split_on "/" ("https://api.teleport.org/api/urban_areas" ++ "/"
                   ++ "slug:london" ++ "/")) (-2)
  = Ok "slug:london".
Proof.
  apply (proj1 (urban_area_slug "https://api.teleport.org/api/urban_areas"
                  "slug:london" eq_refl)).
Defined.
